(** * neb2dimer_dpa2: the NEB-to-dimer hand-off of ATST-Tools

    A shallow embedding of [ase-dp/neb2dimer_dpa2.py].  The script is a
    sequential pipeline; what it computes itself is argument parsing, the
    search for the highest image of the chain, the displacement vector
    between the two images around it, the three moving-atom masks of
    [DPDimer] and the threshold selection [main4dis].  Everything else is a
    call into ASE or the DP calculator, which is recorded here as an event
    in a trace.

    Numbers.  The NumPy arrays of the script hold float64.  The array
    operations are written once, over an arithmetic [Np.Arith], which has
    two instances.  [Np.float64] is IEEE 754 binary64 as the machine
    computes it, rounding, infinities and NaN included; what is said of the
    numbers the script computes is said in it.  [Np.exact] is the real
    numbers; it serves where only finite values are compared or tested
    against zero, as for the energies of a converged chain. *)

From Stdlib Require Import Floats.
From Stdlib Require Import ZArith List String Reals Lra Lia Bool.
From Stdlib Require Import DecimalString.
From stdpp Require Import base option list strings gmap.

Local Open Scope string_scope.
Local Open Scope list_scope.
Local Open Scope Z_scope.

(** ** Exceptions, results and the world the script acts on *)

Inductive exn : Type :=
| IndexError
| ValueError (msg : string)
| AssertionError (msg : string)
| IOError
| SystemExit (code : Z).

Inductive result (A : Type) : Type :=
| Ok (a : A)
| Raise (e : exn).

Arguments Ok {A} a.
Arguments Raise {A} e.

(** Calls into the libraries the script drives.  Only their order and their
    arguments matter here. *)
Inductive call : Type :=
| CallRead (file : string) (format : option string)
| CallDP (model : string)
| CallBFGS (who : string)
| CallWrite (file : string) (format : string)
| CallNEB (n_images : nat)
| CallFIRE (fmax : R)
| CallTrajectory (file : string)
| CallDimerControl (method : string) (displacement_method : option string)
    (mask : list bool)
| CallMinModeAtoms
| CallDisplace
| CallMinModeTranslate
| CallDimerRun (fmax : R)
| CallMkdir (dir : string)
| CallChdir (dir : string)
| CallVibrations (name : string) (indices : list nat)
| CallWriteMode (name : string)
| CallHarmonicThermo (name : string).

(** [environ] is [os.environ], [stdout] what [print] wrote, oldest line
    first, and [trace] the library calls made so far, each with the value
    [OMP_NUM_THREADS] had when the call was made. *)
Record world : Type := World {
  environ : gmap string string;
  stdout : list string;
  trace : list (call * option string)
}.

Definition M (A : Type) : Type := world -> result A * world.

Definition ret {A} (a : A) : M A := fun w => (Ok a, w).

Definition bind {A B} (k : A -> M B) (m : M A) : M B :=
  fun w => match m w with
           | (Ok a, w') => k a w'
           | (Raise e, w') => (Raise e, w')
           end.

Definition raise {A} (e : exn) : M A := fun w => (Raise e, w).

Definition lift {A} (r : result A) : M A := fun w => (r, w).

(** [x ← m; k] and [m ;; k] are stdpp's notations for [bind]. *)
#[global] Instance M_ret : MRet M := @ret.
#[global] Instance M_bind : MBind M := @bind.

Definition OMP_NUM_THREADS : string := "OMP_NUM_THREADS".

Definition print (line : string) : M unit :=
  fun w => (Ok tt, World (environ w) (stdout w ++ [line]) (trace w)).

Definition setenv (key value : string) : M unit :=
  fun w => (Ok tt, World (<[key := value]> (environ w)) (stdout w) (trace w)).

Definition ext (c : call) : M unit :=
  fun w => (Ok tt, World (environ w) (stdout w)
                     (trace w ++ [(c, environ w !! OMP_NUM_THREADS)])).

Definition empty_world : world := World ∅ [] [].

(** ** The fragments of Python the script relies on *)

Module Py.

(** [l[i]] for a list of [len] items: a negative [i] counts from the end,
    anything outside [-len .. len-1] is an [IndexError]. *)
Definition index (len : nat) (i : Z) : option nat :=
  if (0 <=? i) && (i <? Z.of_nat len) then Some (Z.to_nat i)
  else if (- Z.of_nat len <=? i) && (i <? 0) then Some (Z.to_nat (Z.of_nat len + i))
  else None.

Definition getitem {A} (l : list A) (i : Z) : result A :=
  match index (length l) i with
  | Some k => match l !! k with Some x => Ok x | None => Raise IndexError end
  | None => Raise IndexError
  end.

(** [l[i] = x] *)
Definition setitem {A} (l : list A) (i : Z) (x : A) : result (list A) :=
  match index (length l) i with
  | Some k => Ok (<[k := x]> l)
  | None => Raise IndexError
  end.

(** [for i in inds: l[i] = x] *)
Fixpoint setitems {A} (l : list A) (inds : list Z) (x : A) : result (list A) :=
  match inds with
  | [] => Ok l
  | i :: rest =>
      match setitem l i x with
      | Ok l' => setitems l' rest x
      | Raise e => Raise e
      end
  end.

(** [enumerate(l)] *)
Fixpoint enumerate_from {A} (n : nat) (l : list A) : list (nat * A) :=
  match l with
  | [] => []
  | x :: rest => (n, x) :: enumerate_from (S n) rest
  end.

Definition enumerate {A} (l : list A) : list (nat * A) := enumerate_from 0 l.

(** [str(i)] and [str(l)] for an integer and a list of integers. *)
Definition str_int (i : Z) : string := NilZero.string_of_int (Z.to_int i).

Fixpoint join (sep : string) (l : list string) : string :=
  match l with
  | [] => ""
  | [s] => s
  | s :: rest => s +:+ sep +:+ join sep rest
  end.

Definition str_list (l : list Z) : string :=
  "[" +:+ join ", " (map str_int l) +:+ "]".

(** Truth value of an optional list: [None] and [[]] are both false. *)
Definition truthy {A} (o : option (list A)) : bool :=
  match o with
  | Some (_ :: _) => true
  | _ => false
  end.

End Py.

(** ** The fragments of NumPy the script relies on *)

Module Np.

Local Open Scope R_scope.

(** One row of an array of shape (N, 3). *)
Record row (A : Type) : Type := Row { c0 : A; c1 : A; c2 : A }.

Arguments Row {A} c0 c1 c2.
Arguments c0 {A} r.
Arguments c1 {A} r.
Arguments c2 {A} r.

(** The arithmetic of the entries of an array: zero, the four operations,
    the square root, and the comparisons [!=] and [>]. *)
Class Arith (F : Type) : Type := {
  fzero : F;
  fadd : F -> F -> F;
  fsub : F -> F -> F;
  fmul : F -> F -> F;
  fdiv : F -> F -> F;
  fsqrt : F -> F;
  fneb : F -> F -> bool;
  fgtb : F -> F -> bool
}.

(** An array of shape (N, 3) of real numbers: one row per atom. *)
Abbreviation array := (list (row R)).

Definition Rneb (x y : R) : bool := if Req_dec_T x y then false else true.

Definition Rgtb (x y : R) : bool := if Rlt_dec y x then true else false.

(** Real numbers: no rounding, no infinity, no NaN. *)
#[global] Instance exact : Arith R := {|
  fzero := 0;
  fadd := Rplus;
  fsub := Rminus;
  fmul := Rmult;
  fdiv := Rdiv;
  fsqrt := sqrt;
  fneb := Rneb;
  fgtb := Rgtb
|}.

(** IEEE 754 binary64: [x != y] is the negation of [==], true when either
    side is NaN; [x > y] is false when either side is NaN. *)
#[global] Instance float64 : Arith float := {|
  fzero := PrimFloat.zero;
  fadd := PrimFloat.add;
  fsub := PrimFloat.sub;
  fmul := PrimFloat.mul;
  fdiv := PrimFloat.div;
  fsqrt := PrimFloat.sqrt;
  fneb := fun x y => negb (PrimFloat.eqb x y);
  fgtb := fun x y => PrimFloat.ltb y x
|}.

Section Operations.

Context {F : Type} `{Arith F}.

(** [np.zeros(3)] *)
Definition zeros3 : row F := Row fzero fzero fzero.

(** [a != b] for [a] of shape (N, 3) and [b] of shape (3,): [b] is broadcast
    over the rows and the comparison is made entry by entry, so the result
    has shape (N, 3) too. *)
Definition not_equal (a : list (row F)) (b : row F) : list (row bool) :=
  map (fun v => Row (fneb (c0 v) (c0 b)) (fneb (c1 v) (c1 b)) (fneb (c2 v) (c2 b))) a.

Definition sub3 (u v : row F) : row F :=
  Row (fsub (c0 u) (c0 v)) (fsub (c1 u) (c1 v)) (fsub (c2 u) (c2 v)).

(** [a - b] for two arrays of shape (N, 3) and (M, 3): entry by entry when
    N = M, a single row is broadcast over the other array, and any other
    pair of shapes is a [ValueError]. *)
Definition subtract (a b : list (row F)) : result (list (row F)) :=
  if Nat.eqb (length a) (length b) then Ok (zip_with sub3 a b)
  else match a, b with
       | [u], _ => Ok (map (fun v => sub3 u v) b)
       | _, [v] => Ok (map (fun u => sub3 u v) a)
       | _, _ => Raise (ValueError "operands could not be broadcast together")
       end.

(** [a / s] for a scalar [s] *)
Definition divide (a : list (row F)) (s : F) : list (row F) :=
  map (fun v => Row (fdiv (c0 v) s) (fdiv (c1 v) s) (fdiv (c2 v) s)) a.

(** The sum of the squares of a row, added from left to right. *)
Definition sq3 (v : row F) : F :=
  fadd (fadd (fmul (c0 v) (c0 v)) (fmul (c1 v) (c1 v))) (fmul (c2 v) (c2 v)).

Definition sum (l : list F) : F := fold_right fadd fzero l.

(** [np.linalg.norm(a)]: the square root of the sum of the squares of all
    entries.  NumPy leaves the order of that sum to the BLAS [dot]; in
    binary64 the order does not matter when at most one entry is not
    zero. *)
Definition norm (a : list (row F)) : F := fsqrt (sum (map sq3 a)).

(** [np.linalg.norm(a, axis=1)]: the length of each row. *)
Definition norm_axis1 (a : list (row F)) : list F := map (fun v => fsqrt (sq3 v)) a.

End Operations.

(** [m[:,0]] *)
Definition column0 {A} (m : list (row A)) : list A := map c0 m.

End Np.

(** ** Structures *)

(** A constraint of ASE, seen through [get_indices()]. *)
Record constraint : Type := FixAtoms { get_indices : list Z }.

(** An [Atoms] object over the numbers [F]: [len(atoms)] is the number of
    rows of [positions], [_get_constraints()] is [constraints], and
    [get_potential_energy()] is what the calculator bound to it reports. *)
Record Atoms_of (F : Type) : Type := MkAtoms {
  positions : list (Np.row F);
  constraints : list constraint;
  potential_energy : F
}.

Arguments MkAtoms {F} positions constraints potential_energy.
Arguments positions {F} a.
Arguments constraints {F} a.
Arguments potential_energy {F} a.

Abbreviation Atoms := (Atoms_of R).

Definition len_atoms (a : Atoms) : nat := length (positions a).

(** ** class DPDimer *)

Module DPDimer.

Record t : Type := Build {
  init_Atoms : Atoms;
  model : string;
  omp : Z;
  directory : string;
  traj_file : string;
  init_eigenmode_method : string;
  displacement_vector : option Np.array
}.

(** [__init__] with its defaults. *)
Definition init (init_Atoms : Atoms) (model : string) : t :=
  Build init_Atoms model 1 "DIMER" "dimer.traj" "displacement" None.

Definition set_calculator (self : t) : M unit :=
  setenv OMP_NUM_THREADS (Py.str_int (omp self)) ;;
  ext (CallDP (model self)).

(** [None != np.zeros(3)] is a one-dimensional array, and [[:,0]] on it is
    an [IndexError]. *)
Definition set_d_mask_by_displacement (self : t) : M (list bool) :=
  print "=== Set mask by displacement vector where displacement is [0,0,0] ===" ;;
  match displacement_vector self with
  | Some dv =>
      let d_mask := Np.not_equal dv Np.zeros3 in
      mret (Np.column0 d_mask)
  | None => raise IndexError
  end.

Definition set_d_mask_by_constraint (self : t) : M (list bool) :=
  print "=== Set mask by constraint read from init Atoms ===" ;;
  let dimer_init := init_Atoms self in
  let d_mask := replicate (len_atoms dimer_init) true in
  match constraints dimer_init with
  | c :: _ =>
      let const_object := get_indices c in
      lift (Py.setitems d_mask const_object false)
  | [] =>
      print "--- Notice: No constraint found in init Atoms, there will be no mask in dimer calculation ---" ;;
      mret d_mask
  end.

Definition set_d_mask_by_specified (self : t) (moving_atoms_ind : list Z) : M (list bool) :=
  print ("=== Set mask by specifing moving atoms " +:+ Py.str_list moving_atoms_ind +:+ " ===") ;;
  let dimer_init := init_Atoms self in
  let d_mask := replicate (len_atoms dimer_init) false in
  lift (Py.setitems d_mask moving_atoms_ind true).

Definition run (self : t) (fmax : R) (moving_atoms_ind : option (list Z)) : M unit :=
  set_calculator self ;;
  ext (CallTrajectory (traj_file self)) ;;
  (if String.eqb (init_eigenmode_method self) "displacement" then
     d_mask ← (if Py.truthy moving_atoms_ind
               then set_d_mask_by_specified self (default [] moving_atoms_ind)
               else set_d_mask_by_displacement self);
     ext (CallDimerControl (init_eigenmode_method self) (Some "vector") d_mask) ;;
     ext CallMinModeAtoms ;;
     ext CallDisplace
   else if String.eqb (init_eigenmode_method self) "gauss" then
     d_mask ← set_d_mask_by_constraint self;
     ext (CallDimerControl (init_eigenmode_method self) None d_mask) ;;
     ext CallMinModeAtoms
   else raise (ValueError "init_eigenmode_method must be displacement or gauss")) ;;
  ext CallMinModeTranslate ;;
  ext (CallDimerRun fmax).

End DPDimer.

(** ** Functions of the module *)

(** [max(l)] of Python on a list of numbers: the running maximum is replaced
    only by a strictly greater item; an empty list is a [ValueError]. *)
Fixpoint max_from {F : Type} `{Np.Arith F} (m : F) (l : list F) : F :=
  match l with
  | [] => m
  | x :: rest => max_from (if Np.fgtb x m then x else m) rest
  end.

Definition py_max {F : Type} `{Np.Arith F} (l : list F) : result F :=
  match l with
  | [] => Raise (ValueError "max() arg is an empty sequence")
  | x :: rest => Ok (max_from x rest)
  end.

Definition main4dis {F : Type} `{Np.Arith F} (displacement_vector : list (Np.row F))
    (thr : F) : list nat * list F :=
  let len_vector := Np.norm displacement_vector in
  let norm_vector := Np.norm_axis1 (Np.divide displacement_vector len_vector) in
  let main_indices :=
    map fst (List.filter (fun p => Np.fgtb (snd p) thr) (Py.enumerate norm_vector)) in
  (main_indices, norm_vector).

(** What the script gets back from the libraries.  [read_frames f] is
    [read(f, ":", format="traj")], [read_atoms f fmt] is [read(f, format=fmt)];
    [bfgs], [neb_relax] and [dimer_relax] give the structure an optimizer
    leaves behind ([neb_relax chain k img] for image [k] of the chain);
    [path_exists] and [getcwd] are [os.path.exists] and [os.getcwd];
    [harmonic_thermo atoms indices T] is the entropy and the Helmholtz
    energy at temperature [T]; [format_float] renders a number under a
    format such as [".4f"]. *)
Inductive frame : Type :=
| FrameAtoms (a : Atoms)
| FrameOther.

Record external : Type := External {
  read_frames : string -> result (list frame);
  read_atoms : string -> option string -> result Atoms;
  bfgs : Atoms -> Atoms;
  neb_relax : list Atoms -> nat -> Atoms -> Atoms;
  guess_nimages : list Atoms -> Z;
  get_fmax : list Atoms -> R;
  dimer_relax : Atoms -> Atoms;
  path_exists : string -> bool;
  getcwd : string;
  harmonic_thermo : Atoms -> list nat -> R -> R * R;
  format_float : string -> R -> string
}.

Definition thermo_analysis (E : external) (atoms : Atoms) (T : R) (name : string)
    (indices : list nat) : M unit :=
  let vib_dir := name +:+ "_mode" in
  (if negb (path_exists E vib_dir) then ext (CallMkdir (name +:+ "_mode")) else mret tt) ;;
  ext (CallVibrations name indices) ;;
  let ROOT_DIR := getcwd E in
  ext (CallChdir (name +:+ "_mode")) ;;
  ext (CallWriteMode name) ;;
  ext (CallChdir ROOT_DIR) ;;
  ext (CallHarmonicThermo name) ;;
  let '(entropy, free_energy) := harmonic_thermo E atoms indices T in
  print ("==> Entropy: " +:+ format_float E ".6e" entropy +:+ " eV/K <==") ;;
  print ("==> Free Energy: " +:+ format_float E ".6f" free_energy +:+ " eV <==") ;;
  print "".

(** ** The statements of the module, in the order they run *)

Module Script.

Definition model : string := "FeCHO-dpa2-full.pt".
Definition n_max : nat := 8.
Definition neb_fmax : R := 0.80.
Definition dimer_fmax : R := 0.05.
Definition omp : Z := 16.
Definition neb_traj : string := "neb_dpa2_raw.traj".
Definition dimer_traj : string := "dimer_dpa2.traj".

Definition parameter_setting : M unit :=
  setenv OMP_NUM_THREADS "omp".

Definition msg : string := "
Usage: 
- For using IS and FS: 
    python neb2dimer_dpa2.py [init_stru] [final_stru] ([format])
- For using existing NEB: 
    python neb2dimer_dpa2.py [neb_latest.traj]
".

Definition as_atoms (f : frame) : M Atoms :=
  match f with
  | FrameAtoms a => mret a
  | FrameOther =>
      raise (AssertionError "The input file is not a trajectory file contained Atoms object")
  end.

(** The reading part.  It yields the two end structures and the name the
    chain is written under, which is the input file when one is given. *)
Definition reading_part (E : external) (argv : list string) : M (Atoms * Atoms * string) :=
  if (length argv <? 2)%nat then
    print msg ;; raise (SystemExit 1)
  else if (length argv =? 2)%nat then
    a1 ← lift (Py.getitem argv 1);
    if String.eqb a1 "-h" || String.eqb a1 "--help" then
      print msg ;; raise (SystemExit 0)
    else
      let neb_traj := a1 in
      ext (CallRead neb_traj (Some "traj")) ;;
      neb_abacus ← lift (read_frames E neb_traj);
      f_init ← lift (Py.getitem neb_abacus 0);
      f_final ← lift (Py.getitem neb_abacus (-1));
      atom_init ← as_atoms f_init;
      atom_final ← as_atoms f_final;
      mret (atom_init, atom_final, neb_traj)
  else
    init_stru ← lift (Py.getitem argv 1);
    final_stru ← lift (Py.getitem argv 2);
    format ← (if (length argv =? 4)%nat
              then f ← lift (Py.getitem argv 3); mret (Some f)
              else mret None);
    ext (CallRead init_stru format) ;;
    atom_init ← lift (read_atoms E init_stru format);
    ext (CallRead final_stru format) ;;
    atom_final ← lift (read_atoms E final_stru format);
    mret (atom_init, atom_final, neb_traj).

Definition relax_endpoints (E : external) (atom_init atom_final : Atoms) : M (Atoms * Atoms) :=
  ext (CallDP model) ;;
  ext (CallDP model) ;;
  ext (CallBFGS "init") ;;
  ext (CallBFGS "final") ;;
  let atom_init := bfgs E atom_init in
  let atom_final := bfgs E atom_final in
  ext (CallWrite "init_opted.traj" "traj") ;;
  ext (CallWrite "final_opted.traj" "traj") ;;
  mret (atom_init, atom_final).

Fixpoint repeat_m (n : nat) (m : M unit) : M unit :=
  match n with
  | O => mret tt
  | S k => m ;; repeat_m k m
  end.

Definition run_neb (E : external) (atom_init atom_final : Atoms) (neb_traj : string)
    : M (list Atoms) :=
  repeat_m n_max (ext (CallDP model)) ;;
  let images := [atom_init] ++ replicate n_max atom_init ++ [atom_final] in
  ext (CallNEB (length images)) ;;
  ext (CallTrajectory neb_traj) ;;
  ext (CallFIRE neb_fmax) ;;
  mret (imap (neb_relax E images) images).

Definition energies {F : Type} (images : list (Atoms_of F)) : list F :=
  map potential_energy images.

Definition neb_raw_barrier {F : Type} `{Np.Arith F} (images : list (Atoms_of F))
    : result F :=
  py_max (energies images).

(** [[(ind, image) for ind, image in enumerate(images) if ... == barrier][0]] *)
Definition TS_info {F : Type} `{Np.Arith F} (images : list (Atoms_of F))
    : result (nat * Atoms_of F) :=
  match neb_raw_barrier images with
  | Ok barrier =>
      Py.getitem
        (List.filter (fun p => negb (Np.fneb (potential_energy (snd p)) barrier))
           (Py.enumerate images)) 0
  | Raise e => Raise e
  end.

Definition step_before_TS : Z := 1.
Definition step_after_TS : Z := 1.
Definition norm_vector : R := 0.01.

(** The literal [0.01] as a binary64 number. *)
Definition norm_vector64 : float := 0x1.47ae147ae147bp-7.

Definition modulo_norm {F : Type} `{Np.Arith F} (image_vector : list (Np.row F))
    (norm_vector : F) : F :=
  Np.fdiv (Np.norm image_vector) norm_vector.

(** From [ind_before_TS] to [displacement_vector]; the result is the pair
    ([image_vector], [displacement_vector]). *)
Definition displacement_vector {F : Type} `{Np.Arith F} (images : list (Atoms_of F))
    (TS_index : nat) (step_before_TS step_after_TS : Z) (norm_vector : F)
    : result (list (Np.row F) * list (Np.row F)) :=
  let ind_before_TS := Z.of_nat TS_index - step_before_TS in
  let ind_after_TS := Z.of_nat TS_index + step_after_TS in
  match Py.getitem images ind_before_TS with
  | Ok img_before =>
      match Py.getitem images ind_after_TS with
      | Ok img_after =>
          match Np.subtract (positions img_before) (positions img_after) with
          | Ok image_vector =>
              Ok (image_vector,
                  Np.divide image_vector (modulo_norm image_vector norm_vector))
          | Raise e => Raise e
          end
      | Raise e => Raise e
      end
  | Raise e => Raise e
  end.

(** From the start of the module to the displacement vector: everything
    that runs before the dimer part. *)
Definition before_dimer (E : external) (argv : list string)
    : M (Atoms * Atoms * (nat * Atoms) * Np.array * Np.array) :=
  parameter_setting ;;
  '(atom_init, atom_final, neb_traj) ← reading_part E argv;
  '(atom_init, atom_final) ← relax_endpoints E atom_init atom_final;
  images ← run_neb E atom_init atom_final neb_traj;
  let n_images := guess_nimages E images in
  barrier ← lift (neb_raw_barrier images);
  let fmax := get_fmax E images in
  ts ← lift (TS_info images);
  print ("=== Locate TS in " +:+ Py.str_int (Z.of_nat (fst ts)) +:+ " of 0-"
           +:+ Py.str_int (n_images - 1) +:+ " images  ===") ;;
  print ("=== NEB Raw Barrier: " +:+ format_float E ".4f" barrier +:+ " (eV) ===") ;;
  print ("=== NEB Fmax: " +:+ format_float E ".4f" fmax +:+ " (eV/A) ===") ;;
  print "=== Now Turn to Dimer with NEB Information ===" ;;
  '(image_vector, dv) ←
    lift (displacement_vector images (fst ts) step_before_TS step_after_TS norm_vector);
  print ("=== Displacement vector generated by "
           +:+ Py.str_int (Z.of_nat (fst ts) - step_before_TS) +:+ " and "
           +:+ Py.str_int (Z.of_nat (fst ts) + step_after_TS) +:+ " images of NEB chain ===") ;;
  print "=== Which is normalized to 0.01 length ! ===" ;;
  mret (atom_init, atom_final, ts, image_vector, dv).

Definition dimer_part (E : external) (ts : nat * Atoms) (dv : Np.array) : M Atoms :=
  let dimer_init := snd ts in
  let init_eigenmode_method := "displacement" in
  let dimer := DPDimer.Build dimer_init model omp "DIMER" dimer_traj
                 init_eigenmode_method (Some dv) in
  DPDimer.run dimer dimer_fmax None ;;
  mret (dimer_relax E dimer_init).

Definition nl : string := "
".

Definition results (E : external) (atom_init atom_final dimer_init : Atoms) : M unit :=
  ext (CallWrite "IS_get.cif" "cif") ;;
  ext (CallWrite "FS_get.cif" "cif") ;;
  ext (CallWrite "TS_get.cif" "cif") ;;
  ext (CallWrite "IS_get.stru" "abacus") ;;
  ext (CallWrite "FS_get.stru" "abacus") ;;
  ext (CallWrite "TS_get.stru" "abacus") ;;
  let ene_init := potential_energy atom_init in
  let ene_final := potential_energy atom_final in
  let ene_ts := potential_energy dimer_init in
  let ene_delta := (ene_final - ene_init)%R in
  let ene_activa := (ene_ts - ene_init)%R in
  let ene_act_rev := (ene_ts - ene_final)%R in
  let f := format_float E ".6f" in
  print (nl +:+ "==> TS-Search Results <==" +:+ nl
         +:+ "- Items      Energy" +:+ nl
         +:+ "- IS         " +:+ f ene_init +:+ nl
         +:+ "- FS         " +:+ f ene_final +:+ nl
         +:+ "- TS         " +:+ f ene_ts +:+ nl
         +:+ "- dE         " +:+ f ene_delta +:+ nl
         +:+ "- Ea_f       " +:+ f ene_activa +:+ nl
         +:+ "- Ea_r       " +:+ f ene_act_rev +:+ nl).

Definition vibration_analysis (E : external) (atom_init atom_final dimer_init : Atoms)
    (image_vector : Np.array) : M unit :=
  print "==> Do Vibrational Analysis by DP Potential <==" ;;
  let '(vib_indices, norm_vector) := main4dis image_vector 0.10%R in
  print ("=== TS main moving atoms: " +:+ Py.str_list (map Z.of_nat vib_indices) +:+ " ===") ;;
  let T := 523.15%R in
  print "==> For TS Structure <==" ;;
  thermo_analysis E dimer_init T "vib_ts" vib_indices ;;
  print "==> For Initial Structure <==" ;;
  thermo_analysis E atom_init T "vib_is" vib_indices ;;
  print "==> For Final Structure <==" ;;
  thermo_analysis E atom_final T "vib_fs" vib_indices.

Definition main (E : external) (argv : list string) : M unit :=
  '(atom_init, atom_final, ts, image_vector, dv) ← before_dimer E argv;
  dimer_init ← dimer_part E ts dv;
  results E atom_init atom_final dimer_init ;;
  vibration_analysis E atom_init atom_final dimer_init image_vector.

End Script.

(** ** Observations on a world *)

(** The masks handed to [DimerControl], oldest first. *)
Definition masks_used (w : world) : list (list bool) :=
  omap (fun e => match fst e with
                 | CallDimerControl _ _ mask => Some mask
                 | _ => None
                 end) (trace w).

(** [quiet m]: [m] does not write to [os.environ], and every library call
    it makes sees the value [OMP_NUM_THREADS] had when [m] started. *)
Definition quiet {A} (m : M A) : Prop :=
  forall w,
    environ (snd (m w)) = environ w /\
    exists new,
      trace (snd (m w)) = trace w ++ new /\
      Forall (fun e => snd e = environ w !! OMP_NUM_THREADS) new.

(** ** Notions used to state the properties *)

(** The place in a list of [n] items that the index [i] of Python names,
    for [i] from [-n] to [n - 1]. *)
Definition position (n : nat) (i : Z) : nat := Z.to_nat (i mod Z.of_nat n).

(** Whether the index [i] is one a list of [n] items accepts. *)
Definition in_range (n : nat) (i : Z) : Prop := - Z.of_nat n <= i < Z.of_nat n.

(** Whether some index of [inds] names place [k] of a list of [n] items. *)
Definition names_place (n : nat) (inds : list Z) (k : nat) : bool :=
  existsb (fun i => Nat.eqb (position n i) k) inds.

(** The normalized magnitude of a row [r] of the array [v] as [main4dis]
    computes it: the row is divided entry by entry by the norm of [v], and
    the length of the quotient is taken. *)
Definition magnitude {F : Type} `{Np.Arith F} (v : list (Np.row F)) (r : Np.row F) : F :=
  let len_vector := Np.norm v in
  Np.fsqrt (Np.sq3 (Np.Row (Np.fdiv (Np.c0 r) len_vector)
                           (Np.fdiv (Np.c1 r) len_vector)
                           (Np.fdiv (Np.c2 r) len_vector))).

(** A binary64 number that is [0.0] or [-0.0]. *)
Definition is_zero (x : float) : bool := PrimFloat.eqb x PrimFloat.zero.

(** A row of binary64 numbers whose three entries are zero. *)
Definition zero_row (r : Np.row float) : bool :=
  is_zero (Np.c0 r) && is_zero (Np.c1 r) && is_zero (Np.c2 r).

(** A row of binary64 numbers whose three entries are NaN. *)
Definition nan_row (r : Np.row float) : bool :=
  PrimFloat.is_nan (Np.c0 r) && PrimFloat.is_nan (Np.c1 r) && PrimFloat.is_nan (Np.c2 r).

(** A binary64 number that is a zero or NaN. *)
Definition zero_or_nan (x : float) : Prop :=
  match Prim2SF x with
  | S754_zero _ | S754_nan => True
  | _ => False
  end.

(** ** Sample inputs *)

Definition sample_atoms (n : nat) (cs : list constraint) : Atoms :=
  MkAtoms (replicate n Np.zeros3) cs 0%R.

Definition sample_image (x energy : R) : Atoms :=
  MkAtoms [Np.Row x 0%R 0%R] [] energy.

(** One atom at [x] on the first axis, in binary64. *)
Definition sample_image64 (x : float) : Atoms_of float :=
  MkAtoms [Np.Row x PrimFloat.zero PrimFloat.zero] [] PrimFloat.zero.

Definition sample_dimer (a : Atoms) (method : string) (dv : option Np.array) : DPDimer.t :=
  DPDimer.Build a "FeCHO-dpa2-full.pt" 16 "DIMER" "dimer_dpa2.traj" method dv.

Definition sample_external : external :=
  External (fun _ => Ok [FrameAtoms (sample_atoms 1 []); FrameAtoms (sample_atoms 1 [])])
    (fun _ _ => Ok (sample_atoms 1 []))
    (fun a => a) (fun _ _ a => a) (fun l => Z.of_nat (length l)) (fun _ => 0%R)
    (fun a => a) (fun _ => false) "/" (fun _ _ _ => (0%R, 0%R)) (fun _ _ => "0.0").

(** * Properties *)

(** ** Comparisons of real numbers *)

Lemma Rneb_true (x y : R) : Np.Rneb x y = true <-> x <> y.
Proof. unfold Np.Rneb. destruct (Req_dec_T x y); split; congruence. Qed.

Lemma Rneb_false (x y : R) : Np.Rneb x y = false <-> x = y.
Proof. unfold Np.Rneb. destruct (Req_dec_T x y); split; congruence. Qed.

Lemma Rneb_same (x : R) : Np.Rneb x x = false.
Proof. now apply Rneb_false. Qed.

Lemma Rgtb_true (x y : R) : Np.Rgtb x y = true <-> (y < x)%R.
Proof. unfold Np.Rgtb. destruct (Rlt_dec y x); split; intros; try easy. Qed.

Lemma Rgtb_false (x y : R) : Np.Rgtb x y = false <-> (x <= y)%R.
Proof.
  unfold Np.Rgtb. destruct (Rlt_dec y x); split; intros; try easy; lra.
Qed.

(** ** Indexing *)

Lemma index_Some (len : nat) (i : Z) (k : nat) :
  Py.index len i = Some k ->
  (k < len)%nat /\
  ((0 <= i /\ Z.of_nat k = i) \/ (i < 0 /\ Z.of_nat k = Z.of_nat len + i)).
Proof.
  unfold Py.index.
  destruct (Z.leb_spec 0 i); destruct (Z.ltb_spec i (Z.of_nat len));
    destruct (Z.leb_spec (- Z.of_nat len) i); destruct (Z.ltb_spec i 0); simpl;
    try discriminate; intros [= <-]; lia.
Qed.

Lemma index_None (len : nat) (i : Z) :
  Py.index len i = None <-> (i < - Z.of_nat len \/ Z.of_nat len <= i).
Proof.
  unfold Py.index.
  destruct (Z.leb_spec 0 i); destruct (Z.ltb_spec i (Z.of_nat len));
    destruct (Z.leb_spec (- Z.of_nat len) i); destruct (Z.ltb_spec i 0); simpl;
    split; try discriminate; try lia; reflexivity.
Qed.

Lemma getitem_IndexError {A} (l : list A) (i : Z) :
  Py.getitem l i = Raise IndexError <->
  (i < - Z.of_nat (length l) \/ Z.of_nat (length l) <= i).
Proof.
  unfold Py.getitem. destruct (Py.index (length l) i) as [k|] eqn:Hk.
  - destruct (index_Some _ _ _ Hk) as [Hlt Hrange].
    destruct (lookup_lt_is_Some_2 l k Hlt) as [x ->].
    split; [discriminate | lia].
  - split; [intros _; now apply index_None | reflexivity].
Qed.

Lemma getitem_Ok {A} (l : list A) (i : Z) (x : A) :
  Py.getitem l i = Ok x <->
  ((0 <= i /\ l !! Z.to_nat i = Some x) \/
   (- Z.of_nat (length l) <= i < 0 /\ l !! Z.to_nat (Z.of_nat (length l) + i) = Some x)).
Proof.
  unfold Py.getitem. destruct (Py.index (length l) i) as [k|] eqn:Hk.
  - destruct (index_Some _ _ _ Hk) as [Hlt [[H0 Hki]|[H0 Hki]]].
    + assert (k = Z.to_nat i) as -> by lia.
      destruct (l !! Z.to_nat i) eqn:Hl; split; intros H;
        try discriminate; try (injection H as ->; tauto);
        destruct H as [[_ H]|[? _]]; try lia; congruence.
    + assert (k = Z.to_nat (Z.of_nat (length l) + i)) as -> by lia.
      destruct (l !! Z.to_nat (Z.of_nat (length l) + i)) eqn:Hl; split; intros H;
        try discriminate; try (injection H as ->; right; split; [lia|reflexivity]);
        destruct H as [[? _]|[_ H]]; try lia; congruence.
  - apply index_None in Hk. split; [discriminate|].
    intros [[H0 Hl]|[H0 Hl]]; apply lookup_lt_Some in Hl; lia.
Qed.

Lemma lookup_map {A B} (f : A -> B) (l : list A) (i : nat) :
  map f l !! i = option_map f (l !! i).
Proof. revert i. induction l as [|x l IH]; intros [|i]; simpl; auto. Qed.

(** ** Running a program *)

Ltac run_M :=
  unfold mbind, M_bind, bind, mret, M_ret, ret, raise, lift, print, setenv, ext;
  simpl.

(** ** The masks of [DPDimer] *)

Lemma set_d_mask_by_displacement_first_column (self : DPDimer.t) (dv : Np.array) (w : world) :
  DPDimer.displacement_vector self = Some dv ->
  fst (DPDimer.set_d_mask_by_displacement self w)
  = Ok (map (fun v => Np.Rneb (Np.c0 v) 0%R) dv).
Proof.
  intros Hdv. unfold DPDimer.set_d_mask_by_displacement. rewrite Hdv. run_M.
  unfold Np.column0, Np.not_equal. now rewrite map_map.
Qed.

(** C1.  The mask by displacement looks at the first component of each row
    only: the one-atom displacement (0, 1, 0) is not the zero vector, yet
    its atom is masked out. *)
Theorem set_d_mask_by_displacement_drops_moving_atom :
  let dv := [Np.Row 0%R 1%R 0%R] in
  let self := sample_dimer (sample_atoms 1 []) "displacement" (Some dv) in
  (forall v, In v dv -> v <> Np.zeros3) /\
  fst (DPDimer.set_d_mask_by_displacement self empty_world) = Ok [false].
Proof.
  intros dv self. split.
  - intros v [<- | []]. unfold Np.zeros3. intros [= H]. lra.
  - rewrite (set_d_mask_by_displacement_first_column self dv) by reflexivity.
    simpl. now rewrite Rneb_same.
Qed.

(** C4.  The mask by constraint reads the first constraint only: with
    atom 0 fixed by one constraint and atom 1 by another, atom 1 is still
    marked moving. *)
Theorem set_d_mask_by_constraint_reads_first_constraint :
  let atoms := sample_atoms 3 [FixAtoms [0]; FixAtoms [1]] in
  let self := sample_dimer atoms "gauss" None in
  fst (DPDimer.set_d_mask_by_constraint self empty_world) = Ok [false; true; true].
Proof. reflexivity. Qed.

(** The scenario of the specification: five atoms, atom 2 fixed. *)
Example set_d_mask_by_constraint_one_fixed :
  let atoms := sample_atoms 5 [FixAtoms [2]] in
  let self := sample_dimer atoms "gauss" None in
  fst (DPDimer.set_d_mask_by_constraint self empty_world)
  = Ok [true; true; false; true; true].
Proof. reflexivity. Qed.

(** Without a constraint every atom moves, and the notice is printed. *)
Lemma set_d_mask_by_constraint_none (self : DPDimer.t) (w : world) :
  constraints (DPDimer.init_Atoms self) = [] ->
  DPDimer.set_d_mask_by_constraint self w
  = (Ok (replicate (len_atoms (DPDimer.init_Atoms self)) true),
     World (environ w)
       (stdout w ++ ["=== Set mask by constraint read from init Atoms ==="]
          ++ ["--- Notice: No constraint found in init Atoms, there will be no mask in dimer calculation ---"])
       (trace w)).
Proof.
  intros Hc. unfold DPDimer.set_d_mask_by_constraint. rewrite Hc. run_M.
  now rewrite <- app_assoc.
Qed.

Lemma masks_used_app (w : world) (e s : _) (new : list (call * option string)) :
  masks_used (World e s (trace w ++ new))
  = masks_used w ++ masks_used (World e s new).
Proof. unfold masks_used. simpl. apply omap_app. Qed.

(** C10 (as amended).  With the "displacement" method an empty index
    list is treated as no list: the two runs are the same, they succeed, and
    the mask handed to [DimerControl] is the mask by displacement, which
    marks every atom fixed when the displacement vector is zero
    everywhere.  A list with at least one index selects the mask by explicit
    list. *)
Theorem run_empty_list_is_no_list (self : DPDimer.t) (fmax : R) (dv : Np.array) (w : world) :
  DPDimer.init_eigenmode_method self = "displacement" ->
  DPDimer.displacement_vector self = Some dv ->
  DPDimer.run self fmax (Some []) w = DPDimer.run self fmax None w /\
  fst (DPDimer.run self fmax (Some []) w) = Ok tt /\
  masks_used (snd (DPDimer.run self fmax (Some []) w))
  = masks_used w ++ [Np.column0 (Np.not_equal dv Np.zeros3)] /\
  ((forall v, In v dv -> v = Np.zeros3) ->
   Np.column0 (Np.not_equal dv Np.zeros3) = replicate (length dv) false) /\
  (forall i rest mask,
     Py.setitems (replicate (len_atoms (DPDimer.init_Atoms self)) false) (i :: rest) true
     = Ok mask ->
     masks_used (snd (DPDimer.run self fmax (Some (i :: rest)) w))
     = masks_used w ++ [mask]).
Proof.
  intros Hm Hdv. split; [reflexivity|].
  assert (Hzero : (forall v, In v dv -> v = Np.zeros3) ->
            Np.column0 (Np.not_equal dv Np.zeros3) = replicate (length dv) false).
  { clear. induction dv as [|v dv IH]; intros Hall; [reflexivity|].
    cbn [Np.column0 Np.not_equal map length replicate].
    rewrite (Hall v) by now left. cbn [Np.c0 Np.zeros3 Np.fneb Np.fzero Np.exact].
    rewrite Rneb_same. f_equal. apply IH. intros v' Hin. apply Hall. now right. }
  unfold DPDimer.run, DPDimer.set_calculator, DPDimer.set_d_mask_by_displacement,
    DPDimer.set_d_mask_by_specified.
  rewrite Hm, Hdv. run_M.
  split; [reflexivity|]. split; [|split; [exact Hzero|]].
  - rewrite <- !app_assoc. now rewrite masks_used_app.
  - intros i rest mask Hmask. rewrite Hmask. simpl.
    rewrite <- !app_assoc. now rewrite masks_used_app.
Qed.

(** With a displacement vector that is zero for the one atom there is,
    the run with an empty index list succeeds and hands [DimerControl] the
    mask that fixes every atom. *)
Lemma run_empty_list_can_fix_every_atom :
  let dv := [Np.Row 0%R 0%R 0%R] in
  let self := sample_dimer (sample_atoms 1 []) "displacement" (Some dv) in
  fst (DPDimer.run self 0.05%R (Some []) empty_world) = Ok tt /\
  masks_used (snd (DPDimer.run self 0.05%R (Some []) empty_world))
  = [replicate (len_atoms (DPDimer.init_Atoms self)) false].
Proof.
  intros dv self.
  unfold DPDimer.run, DPDimer.set_calculator, DPDimer.set_d_mask_by_displacement.
  run_M. split; [reflexivity|].
  unfold masks_used. cbn [trace omap fst app]. now rewrite Rneb_same.
Qed.

Lemma run_empty_list_is_no_list_witness :
  let dv := [Np.Row 1%R 0%R 0%R; Np.Row 0%R 0%R 0%R] in
  let self := sample_dimer (sample_atoms 2 []) "displacement" (Some dv) in
  DPDimer.run self 0.05%R (Some []) empty_world = DPDimer.run self 0.05%R None empty_world.
Proof.
  intros dv self.
  exact (proj1 (run_empty_list_is_no_list self 0.05%R dv empty_world eq_refl eq_refl)).
Defined.

(** ** Programs that leave the environment alone *)

Lemma quiet_ret {A} (a : A) : quiet (mret a).
Proof. intros w. split; [reflexivity|]. exists []. simpl. now rewrite app_nil_r. Qed.

Lemma quiet_raise {A} (e : exn) : quiet (@raise A e).
Proof. intros w. split; [reflexivity|]. exists []. simpl. now rewrite app_nil_r. Qed.

Lemma quiet_lift {A} (r : result A) : quiet (lift r).
Proof. intros w. split; [reflexivity|]. exists []. simpl. now rewrite app_nil_r. Qed.

Lemma quiet_print (s : string) : quiet (print s).
Proof. intros w. split; [reflexivity|]. exists []. simpl. now rewrite app_nil_r. Qed.

Lemma quiet_ext (c : call) : quiet (ext c).
Proof.
  intros w. split; [reflexivity|].
  exists [(c, environ w !! OMP_NUM_THREADS)]. simpl. split; [reflexivity|].
  now repeat constructor.
Qed.

Lemma quiet_bind {A B} (m : M A) (k : A -> M B) :
  quiet m -> (forall a, quiet (k a)) -> quiet (mbind k m).
Proof.
  intros Hm Hk w. unfold mbind, M_bind, bind.
  destruct (Hm w) as (Henv & new & Htr & Hall).
  destruct (m w) as [[a|e] w1]; simpl in *.
  - destruct (Hk a w1) as (Henv' & new' & Htr' & Hall').
    split; [congruence|].
    exists (new ++ new'). split.
    + rewrite Htr', Htr. now rewrite app_assoc.
    + apply Forall_app. split; [exact Hall|]. now rewrite Henv in Hall'.
  - split; [exact Henv|]. now exists new.
Qed.

Ltac quiet_step :=
  first
    [ apply quiet_bind; [|intros ?]
    | apply quiet_print
    | apply quiet_ext
    | apply quiet_ret
    | apply quiet_raise
    | apply quiet_lift
    | match goal with
      | |- quiet (if ?b then _ else _) => destruct b
      | |- quiet (match ?x with _ => _ end) => destruct x
      end ].

Ltac quiet_tac := repeat quiet_step.

Lemma quiet_repeat_m (n : nat) (m : M unit) : quiet m -> quiet (Script.repeat_m n m).
Proof. intros Hm. induction n; simpl; quiet_tac; assumption. Qed.

Lemma quiet_reading_part (E : external) (argv : list string) :
  quiet (Script.reading_part E argv).
Proof. unfold Script.reading_part, Script.as_atoms. quiet_tac. Qed.

Lemma quiet_relax_endpoints (E : external) (a b : Atoms) :
  quiet (Script.relax_endpoints E a b).
Proof. unfold Script.relax_endpoints. quiet_tac. Qed.

Lemma quiet_run_neb (E : external) (a b : Atoms) (f : string) :
  quiet (Script.run_neb E a b f).
Proof.
  unfold Script.run_neb. apply quiet_bind; [|intros ?; quiet_tac].
  apply quiet_repeat_m, quiet_ext.
Qed.

Lemma setenv_then_quiet {A} (v : string) (k : M A) (w : world) :
  quiet k ->
  let w' := snd ((setenv OMP_NUM_THREADS v ;; k) w) in
  environ w' !! OMP_NUM_THREADS = Some v /\
  exists new, trace w' = trace w ++ new /\ Forall (fun e => snd e = Some v) new.
Proof.
  intros Hk. unfold mbind, M_bind, bind, setenv. simpl.
  destruct (Hk (World (<[OMP_NUM_THREADS:=v]> (environ w)) (stdout w) (trace w)))
    as (Henv & new & Htr & Hall).
  simpl in *. rewrite lookup_insert_eq in Hall.
  destruct (k _) as [[a|e] w1]; simpl in *;
    (split; [rewrite Henv; apply lookup_insert_eq | now exists new]).
Qed.

(** ** The thread-count hint *)

(** C9 (as amended).  The parameter setting stores the three-character
    literal "omp", which is not the decimal rendering "16" of the count;
    [set_calculator] stores that rendering; every library call made before
    the dimer part sees "omp"; and every call of the dimer part, of which
    there is at least one, sees "16". *)
Theorem omp_hint_set_late (E : external) (argv : list string) (w : world) :
  (exists v,
     environ (snd (Script.parameter_setting w)) !! OMP_NUM_THREADS = Some v /\
     v = "omp" /\ String.length v = 3%nat /\ v <> Py.str_int Script.omp) /\
  (forall self,
     environ (snd (DPDimer.set_calculator self w)) !! OMP_NUM_THREADS
     = Some (Py.str_int (DPDimer.omp self))) /\
  Py.str_int Script.omp = "16" /\
  (let w' := snd (Script.before_dimer E argv w) in
   environ w' !! OMP_NUM_THREADS = Some "omp" /\
   exists new, trace w' = trace w ++ new /\ Forall (fun e => snd e = Some "omp") new) /\
  (forall ts dv,
     let w' := snd (Script.dimer_part E ts dv w) in
     environ w' !! OMP_NUM_THREADS = Some "16" /\
     exists new, trace w' = trace w ++ new /\ new <> [] /\
                 Forall (fun e => snd e = Some "16") new).
Proof.
  split; [|split; [|split; [|split]]].
  - exists "omp". unfold Script.parameter_setting, setenv. simpl.
    rewrite lookup_insert_eq. repeat split. discriminate.
  - intros self. unfold DPDimer.set_calculator. run_M. apply lookup_insert_eq.
  - reflexivity.
  - unfold Script.before_dimer, Script.parameter_setting.
    apply setenv_then_quiet.
    repeat first [ apply quiet_reading_part | apply quiet_relax_endpoints
                 | apply quiet_run_neb | quiet_step ].
  - intros ts dv.
    unfold Script.dimer_part, DPDimer.run, DPDimer.set_calculator,
      DPDimer.set_d_mask_by_displacement.
    run_M. change (Py.str_int Script.omp) with "16".
    rewrite !lookup_insert_eq. split; [reflexivity|].
    rewrite <- !app_assoc. eexists. split; [reflexivity|].
    split; [discriminate|]. now repeat constructor.
Qed.

(** The literal stored by the parameter setting does not have four
    characters. *)
Lemma parameter_setting_not_four_characters :
  ~ exists v,
      environ (snd (Script.parameter_setting empty_world)) !! OMP_NUM_THREADS = Some v /\
      String.length v = 4%nat.
Proof.
  intros (v & Hv & Hlen). unfold Script.parameter_setting, setenv in Hv. simpl in Hv.
  rewrite lookup_insert_eq in Hv. injection Hv as <-. discriminate.
Qed.

(** ** The reading part *)

(** Four file arguments are more than two, and yet the reading part prints
    nothing and returns normally. *)
Lemma reading_part_accepts_four_files :
  let argv := ["neb2dimer_dpa2.py"; "a.stru"; "b.stru"; "c.stru"; "d.stru"] in
  (2 < length argv - 1)%nat /\
  exists r w,
    Script.reading_part sample_external argv empty_world = (Ok r, w) /\ stdout w = [].
Proof.
  intros argv. split; [simpl; lia|].
  eexists. eexists. split; reflexivity.
Qed.

Lemma getitem_1 {A} (x0 x1 : A) (l : list A) : Py.getitem (x0 :: x1 :: l) 1 = Ok x1.
Proof. apply getitem_Ok. left. split; [lia | reflexivity]. Qed.

Lemma getitem_2 {A} (x0 x1 x2 : A) (l : list A) : Py.getitem (x0 :: x1 :: x2 :: l) 2 = Ok x2.
Proof. apply getitem_Ok. left. split; [lia | reflexivity]. Qed.

(** C3 (as amended).  Without an argument the usage message is printed
    and the exit code is 1; with [-h] or [--help] as the only argument it is
    printed and the exit code is 0; with two arguments or more nothing is
    printed and nothing is rejected: the first two name the structures to
    read, the third is the format when there are exactly three, and further
    arguments switch the format back to automatic detection. *)
Theorem reading_part_cases (E : external) (w : world) :
  (forall argv,
     (length argv < 2)%nat ->
     Script.reading_part E argv w
     = (Raise (SystemExit 1), World (environ w) (stdout w ++ [Script.msg]) (trace w))) /\
  (forall prog h,
     h = "-h" \/ h = "--help" ->
     Script.reading_part E [prog; h] w
     = (Raise (SystemExit 0), World (environ w) (stdout w ++ [Script.msg]) (trace w))) /\
  (forall prog a1 a2 rest,
     let format := match rest with [f] => Some f | _ => None end in
     Script.reading_part E (prog :: a1 :: a2 :: rest) w
     = (ext (CallRead a1 format) ;;
        atom_init ← lift (read_atoms E a1 format);
        ext (CallRead a2 format) ;;
        atom_final ← lift (read_atoms E a2 format);
        mret (atom_init, atom_final, Script.neb_traj)) w /\
     stdout (snd (Script.reading_part E (prog :: a1 :: a2 :: rest) w)) = stdout w).
Proof.
  split; [|split].
  - intros argv Hlen. unfold Script.reading_part.
    apply Nat.ltb_lt in Hlen. now rewrite Hlen.
  - intros prog h [-> | ->]; reflexivity.
  - intros prog a1 a2 rest format.
    assert (Heq : Script.reading_part E (prog :: a1 :: a2 :: rest) w
                  = (ext (CallRead a1 format) ;;
                     atom_init ← lift (read_atoms E a1 format);
                     ext (CallRead a2 format) ;;
                     atom_final ← lift (read_atoms E a2 format);
                     mret (atom_init, atom_final, Script.neb_traj)) w).
    { unfold Script.reading_part.
      change (length (prog :: a1 :: a2 :: rest) <? 2)%nat with false.
      change (length (prog :: a1 :: a2 :: rest) =? 2)%nat with false.
      cbv iota. unfold mbind at 1 2, M_bind, bind, lift.
      rewrite getitem_1, getitem_2.
      destruct rest as [|f [|g rest]]; reflexivity. }
    split; [exact Heq|]. rewrite Heq. run_M.
    destruct (read_atoms E a1 format); simpl; [|reflexivity].
    destruct (read_atoms E a2 format); reflexivity.
Qed.

Lemma reading_part_cases_witness :
  Script.reading_part sample_external ["neb2dimer_dpa2.py"] empty_world
  = (Raise (SystemExit 1), World ∅ [Script.msg] []).
Proof.
  apply (proj1 (reading_part_cases sample_external empty_world) ["neb2dimer_dpa2.py"]).
  simpl. lia.
Defined.

(** ** The search for the transition state *)

Lemma max_from_ge (l : list R) (m : R) :
  (m <= max_from m l)%R /\ Forall (fun x => (x <= max_from m l)%R) l.
Proof.
  revert m. induction l as [|x l IH]; intros m; simpl.
  - split; [lra | constructor].
  - destruct (IH (if Np.Rgtb x m then x else m)) as [Hm Hl].
    destruct (Np.Rgtb x m) eqn:Hx.
    + apply Rgtb_true in Hx. split; [lra|]. constructor; assumption.
    + apply Rgtb_false in Hx. split; [lra|]. constructor; [lra | assumption].
Qed.

Lemma max_from_in {F : Type} `{Np.Arith F} (l : list F) (m : F) :
  In (max_from m l) (m :: l).
Proof.
  revert m. induction l as [|x l IH]; intros m; cbn [max_from].
  - now left.
  - destruct (IH (if Np.fgtb x m then x else m)) as [E|E].
    + destruct (Np.fgtb x m); [right; left | left]; exact E.
    + right. right. exact E.
Qed.

Lemma filter_enumerate_head {A} (P : A -> bool) (l : list A) (n i : nat) (x : A)
    (rest : list (nat * A)) :
  List.filter (fun p => P (snd p)) (Py.enumerate_from n l) = (i, x) :: rest ->
  (n <= i)%nat /\ l !! (i - n)%nat = Some x /\ P x = true /\
  forall j y, (j < i - n)%nat -> l !! j = Some y -> P y = false.
Proof.
  revert n. induction l as [|a l IH]; intros n; simpl; [discriminate|].
  destruct (P a) eqn:Ha.
  - intros [= <- <- _]. rewrite Nat.sub_diag. repeat split; try easy.
  - intros H. destruct (IH _ H) as (Hle & Hx & HP & Hbefore).
    split; [lia|].
    replace (i - n)%nat with (S (i - S n)) by lia.
    repeat split; try assumption.
    intros [|j] y Hj; simpl.
    + now intros [= <-].
    + apply Hbefore. lia.
Qed.

Lemma filter_enumerate_nonempty {A} (P : A -> bool) (l : list A) (n : nat) (x : A) :
  In x l -> P x = true ->
  List.filter (fun p => P (snd p)) (Py.enumerate_from n l) <> [].
Proof.
  revert n. induction l as [|a l IH]; intros n; simpl; [easy|].
  intros [-> | Hin] HP.
  - now rewrite HP.
  - destruct (P a); [discriminate | now apply IH].
Qed.

Lemma getitem_0 {A} (x : A) (l : list A) : Py.getitem (x :: l) 0 = Ok x.
Proof. apply getitem_Ok. left. split; [lia | reflexivity]. Qed.

(** C7.  On a chain that is not empty the search returns an index [i] and
    the image at [i]; the energy of that image is the maximum over the
    chain, and every image before [i] has a strictly smaller energy. *)
Theorem TS_info_first_maximum (images : list Atoms) :
  images <> [] ->
  exists i img,
    Script.TS_info images = Ok (i, img) /\
    images !! i = Some img /\
    Script.neb_raw_barrier images = Ok (potential_energy img) /\
    (forall j other, images !! j = Some other ->
       (potential_energy other <= potential_energy img)%R) /\
    (forall j other, (j < i)%nat -> images !! j = Some other ->
       (potential_energy other < potential_energy img)%R).
Proof.
  intros Hne. destruct images as [|im0 ims]; [contradiction|].
  unfold Script.TS_info, Script.neb_raw_barrier, Script.energies.
  change (@Np.fneb R Np.exact) with Np.Rneb.
  pose (barrier := max_from (potential_energy im0) (map potential_energy ims)).
  assert (Hb : py_max (map potential_energy (im0 :: ims)) = Ok barrier) by reflexivity.
  rewrite Hb. clear Hb.
  set (P := fun a : Atoms => negb (Np.Rneb (potential_energy a) barrier)).
  assert (Hin : exists a, In a (im0 :: ims) /\ P a = true).
  { destruct (max_from_in (map potential_energy ims) (potential_energy im0)) as [H|H].
    - exists im0. split; [now left|]. unfold P. fold barrier in H.
      apply negb_true_iff, Rneb_false. exact H.
    - apply in_map_iff in H. destruct H as (a & Ha & Hina).
      exists a. split; [now right|]. unfold P. fold barrier in Ha.
      apply negb_true_iff, Rneb_false. exact Ha. }
  destruct Hin as (a & Hina & HPa).
  pose proof (filter_enumerate_nonempty P (im0 :: ims) 0 a Hina HPa) as Hnonempty.
  unfold Py.enumerate.
  change (fun p : nat * Atoms => negb (Np.Rneb (potential_energy (snd p)) barrier))
    with (fun p : nat * Atoms => P (snd p)).
  destruct (List.filter (fun p => P (snd p)) (Py.enumerate_from 0 (im0 :: ims)))
    as [|[i img] rest] eqn:Hf; [contradiction|].
  destruct (filter_enumerate_head P _ _ _ _ _ Hf) as (_ & Hi & HPi & Hbefore).
  rewrite Nat.sub_0_r in Hi, Hbefore.
  unfold P in HPi. apply negb_true_iff, Rneb_false in HPi.
  assert (Hmax : forall j other, (im0 :: ims) !! j = Some other ->
            (potential_energy other <= barrier)%R).
  { destruct (max_from_ge (map potential_energy ims) (potential_energy im0)) as [H0 Hall].
    fold barrier in H0, Hall. intros [|j] other; simpl.
    - now intros [= <-].
    - intros Hj. rewrite List.Forall_forall in Hall. apply Hall.
      apply in_map. apply list_elem_of_In. eapply list_elem_of_lookup_2. exact Hj. }
  exists i, img. rewrite getitem_0. repeat split.
  - exact Hi.
  - now rewrite HPi.
  - intros j other Hj. rewrite HPi. eapply Hmax. exact Hj.
  - intros j other Hlt Hj. rewrite HPi.
    pose proof (Hmax j other Hj) as Hle.
    pose proof (Hbefore j other Hlt Hj) as Hnot.
    unfold P in Hnot. apply negb_false_iff, Rneb_true in Hnot. lra.
Qed.

Ltac decide_R :=
  repeat match goal with
    | |- context [Np.Rgtb ?x ?y] =>
        first [ rewrite (proj2 (Rgtb_true x y)) by lra
              | rewrite (proj2 (Rgtb_false x y)) by lra ]
    | |- context [Np.Rneb ?x ?y] =>
        first [ rewrite (proj2 (Rneb_false x y)) by lra
              | rewrite (proj2 (Rneb_true x y)) by lra ]
    end.

(** Four images, two of them at the top: the first of the two is found. *)
Example TS_info_tie :
  Script.TS_info [sample_image 0 0; sample_image 1 2; sample_image 2 2; sample_image 3 1]
  = Ok (1%nat, sample_image 1 2).
Proof.
  unfold Script.TS_info, Script.neb_raw_barrier, Script.energies. simpl.
  decide_R. simpl. decide_R. reflexivity.
Qed.

Lemma TS_info_first_maximum_witness :
  exists i img,
    Script.TS_info [sample_image 0 0; sample_image 1 2; sample_image 2 2] = Ok (i, img) /\
    [sample_image 0 0; sample_image 1 2; sample_image 2 2] !! i = Some img.
Proof.
  destruct (TS_info_first_maximum [sample_image 0 0; sample_image 1 2; sample_image 2 2])
    as (i & img & H1 & H2 & _); [discriminate|].
  exists i, img. split; assumption.
Defined.

(** ** The displacement vector *)

Lemma getitem_cases {A} (l : list A) (i : Z) :
  (exists x, Py.getitem l i = Ok x /\ - Z.of_nat (length l) <= i < Z.of_nat (length l)) \/
  (Py.getitem l i = Raise IndexError /\
   (i < - Z.of_nat (length l) \/ Z.of_nat (length l) <= i)).
Proof.
  unfold Py.getitem. destruct (Py.index (length l) i) as [k|] eqn:Hk.
  - destruct (index_Some _ _ _ Hk) as [Hlt Hrange].
    destruct (lookup_lt_is_Some_2 l k Hlt) as [x ->].
    left. exists x. split; [reflexivity | lia].
  - right. split; [reflexivity | now apply index_None].
Qed.

Lemma subtract_not_IndexError {F : Type} `{Np.Arith F} (a b : list (Np.row F)) :
  Np.subtract a b <> Raise IndexError.
Proof.
  unfold Np.subtract. destruct (Nat.eqb (length a) (length b)); [discriminate|].
  destruct a as [|u [|u' a]]; destruct b as [|v [|v' b]]; discriminate.
Qed.

(** On the chain 0, 1, 2 with the transition state at index 0 the image
    before it would be image -1: no error is raised and the last image of
    the chain is taken. *)
Lemma displacement_vector_wraps_around :
  let images := [sample_image 0 0; sample_image 1 0; sample_image 2 0] in
  Z.of_nat 0 - 1 < 0 /\
  exists dv,
    Script.displacement_vector images 0 1 1 Script.norm_vector
    = Ok (zip_with Np.sub3 (positions (sample_image 2 0)) (positions (sample_image 1 0)), dv).
Proof.
  intros images. split; [lia|]. eexists. reflexivity.
Qed.

(** C2 (as amended).  In every arithmetic, the derivation raises
    [IndexError] exactly when one of the two indices lies outside
    [-len, len - 1].  An index before the start of the chain that is still
    within that range is not rejected: when the index after is in range
    too, the image it names counting from the end of the chain is taken as
    the image before, and the outcome is that of the subtraction of the two
    position arrays and of the division that follows, which succeeds when
    the two images have the same number of atoms. *)
Theorem displacement_vector_index_error {F : Type} `{Np.Arith F}
    (images : list (Atoms_of F)) (i : nat) (b a : Z) (nv : F) :
  let len := Z.of_nat (length images) in
  let ind_before_TS := Z.of_nat i - b in
  let ind_after_TS := Z.of_nat i + a in
  (Script.displacement_vector images i b a nv = Raise IndexError <->
   (ind_before_TS < - len \/ len <= ind_before_TS \/
    ind_after_TS < - len \/ len <= ind_after_TS)) /\
  (- len <= ind_before_TS < 0 ->
   - len <= ind_after_TS < len ->
   exists img_before img_after,
     images !! Z.to_nat (len + ind_before_TS) = Some img_before /\
     Py.getitem images ind_after_TS = Ok img_after /\
     Script.displacement_vector images i b a nv
     = match Np.subtract (positions img_before) (positions img_after) with
       | Ok iv => Ok (iv, Np.divide iv (Script.modulo_norm iv nv))
       | Raise e => Raise e
       end /\
     (length (positions img_before) = length (positions img_after) ->
      exists dv,
        Script.displacement_vector images i b a nv
        = Ok (zip_with Np.sub3 (positions img_before) (positions img_after), dv))).
Proof.
  intros len ind_before_TS ind_after_TS. unfold Script.displacement_vector.
  fold ind_before_TS ind_after_TS. split.
  - destruct (getitem_cases images ind_before_TS) as [(x & -> & Hx) | [-> Hx]];
      [|fold len in Hx; split; [lia | reflexivity]].
    destruct (getitem_cases images ind_after_TS) as [(y & -> & Hy) | [-> Hy]];
      [|fold len in Hy; split; [lia | reflexivity]].
    fold len in Hx, Hy.
    destruct (Np.subtract (positions x) (positions y)) as [iv|e] eqn:Hsub.
    + split; [discriminate | lia].
    + split; [|lia]. intros [= ->]. now apply subtract_not_IndexError in Hsub.
  - intros Hbefore Hafter.
    destruct (getitem_cases images ind_before_TS) as [(x & Hx & _) | [_ Hx]];
      [|fold len in Hx; lia].
    destruct (getitem_cases images ind_after_TS) as [(y & Hy & _) | [_ Hy]];
      [|fold len in Hy; lia].
    rewrite Hx, Hy. exists x, y. split; [|split; [reflexivity|split; [reflexivity|]]].
    + apply getitem_Ok in Hx. destruct Hx as [[H0 _] | [_ Hx]]; [lia | exact Hx].
    + intros Hlen. unfold Np.subtract. rewrite Hlen, Nat.eqb_refl.
      eexists. reflexivity.
Qed.

Lemma displacement_vector_index_error_witness :
  let images := [sample_image 0 0; sample_image 1 0; sample_image 2 0] in
  exists dv,
    Script.displacement_vector images 0 1 1 Script.norm_vector
    = Ok (zip_with Np.sub3 (positions (sample_image 2 0)) (positions (sample_image 1 0)), dv).
Proof.
  intros images.
  destruct (proj2 (displacement_vector_index_error images 0 1 1 Script.norm_vector))
    as (img_before & img_after & Hb & Ha & _ & Hok).
  - simpl. lia.
  - simpl. lia.
  - injection Hb as <-. injection Ha as <-. apply Hok. reflexivity.
Defined.

(** ** The scaling of the displacement vector *)

(** In binary64, with one atom at 0.041 before the transition state and at
    0 after it, the difference is not zero, the derivation succeeds, and
    the norm of its displacement vector is the number next above the
    binary64 [0.01]. *)
Lemma displacement_vector_norm_inexact :
  let images := [sample_image64 0x1.4fdf3b645a1cbp-5; sample_image64 0%float;
                 sample_image64 0%float] in
  exists dv,
    Script.displacement_vector images 1 1 1 Script.norm_vector64
    = Ok ([Np.Row 0x1.4fdf3b645a1cbp-5%float 0%float 0%float], dv) /\
    Np.norm dv = 0x1.47ae147ae147cp-7%float /\
    PrimFloat.eqb (Np.norm dv) Script.norm_vector64 = false.
Proof.
  intros images. eexists. split; [vm_compute; reflexivity|].
  split; vm_compute; reflexivity.
Qed.

(** C6 (as amended).  In every arithmetic, binary64 among them, for two
    images of the chain with the same number of atoms the derivation
    succeeds; its image vector is the positions of the image before minus
    those of the image after, row by row, and its displacement vector has
    as many rows, each the row of that difference divided entry by entry by
    one number, the norm of the difference divided by the target
    magnitude.  No norm of the result is promised. *)
Theorem displacement_vector_norm {F : Type} `{Np.Arith F}
    (images : list (Atoms_of F)) (i : nat) (b a : Z) (nv : F)
    (img_before img_after : Atoms_of F) :
  Py.getitem images (Z.of_nat i - b) = Ok img_before ->
  Py.getitem images (Z.of_nat i + a) = Ok img_after ->
  length (positions img_before) = length (positions img_after) ->
  let difference := zip_with Np.sub3 (positions img_before) (positions img_after) in
  let modulo_norm := Np.fdiv (Np.norm difference) nv in
  exists dv,
    Script.displacement_vector images i b a nv = Ok (difference, dv) /\
    length dv = length difference /\
    forall k r,
      difference !! k = Some r ->
      dv !! k = Some (Np.Row (Np.fdiv (Np.c0 r) modulo_norm)
                             (Np.fdiv (Np.c1 r) modulo_norm)
                             (Np.fdiv (Np.c2 r) modulo_norm)).
Proof.
  intros Hb Ha Hlen difference modulo_norm.
  unfold Script.displacement_vector. rewrite Hb, Ha.
  unfold Np.subtract. rewrite Hlen, Nat.eqb_refl. fold difference.
  eexists. split; [reflexivity|]. unfold Np.divide, Script.modulo_norm.
  fold modulo_norm. split; [apply length_map|].
  intros k r Hr. now rewrite lookup_map, Hr.
Qed.

Lemma displacement_vector_norm_witness :
  exists dv,
    Script.displacement_vector
      [sample_image64 0x1.4fdf3b645a1cbp-5; sample_image64 0%float; sample_image64 0%float]
      1 1 1 Script.norm_vector64
    = Ok (zip_with Np.sub3 (positions (sample_image64 0x1.4fdf3b645a1cbp-5))
            (positions (sample_image64 0%float)), dv) /\
    length dv = 1%nat.
Proof.
  destruct (displacement_vector_norm
              [sample_image64 0x1.4fdf3b645a1cbp-5; sample_image64 0%float;
               sample_image64 0%float] 1 1 1 Script.norm_vector64
              (sample_image64 0x1.4fdf3b645a1cbp-5) (sample_image64 0%float)
              eq_refl eq_refl eq_refl)
    as (dv & Hdv & Hlen & _).
  exists dv. split; assumption.
Defined.

(** ** The main-mode selector *)

Lemma enumerate_filter_indices {A} (P : A -> bool) (l : list A) (n : nat) :
  map fst (List.filter (fun p => P (snd p)) (Py.enumerate_from n l))
  = List.filter (fun i => match l !! (i - n)%nat with Some x => P x | None => false end)
      (seq n (length l)).
Proof.
  revert n. induction l as [|a l IH]; intros n; [reflexivity|].
  cbn [Py.enumerate_from length seq List.filter snd]. rewrite Nat.sub_diag.
  cbn [lookup list_lookup].
  assert (Hrest : map fst (List.filter (fun p => P (snd p)) (Py.enumerate_from (S n) l))
                  = List.filter
                      (fun i => match (a :: l) !! (i - n)%nat with
                                | Some x => P x
                                | None => false
                                end) (seq (S n) (length l))).
  { rewrite IH. apply filter_ext_in. intros i Hi. apply in_seq in Hi.
    replace (i - n)%nat with (S (i - S n)) by lia. reflexivity. }
  destruct (P a); simpl; now rewrite Hrest.
Qed.

(** ** Binary64 numbers *)

Lemma ltb_infinity (x : float) : PrimFloat.ltb infinity x = false.
Proof.
  rewrite FloatAxioms.ltb_spec. change (Prim2SF infinity) with (S754_infinity false).
  destruct (Prim2SF x) as [s|[|]| |s m e]; reflexivity.
Qed.

Lemma is_zero_spec (x : float) : is_zero x = true -> exists s, Prim2SF x = S754_zero s.
Proof.
  unfold is_zero. rewrite FloatAxioms.eqb_spec.
  change (Prim2SF PrimFloat.zero) with (S754_zero false).
  destruct (Prim2SF x) as [s|[|]| |[|] m e]; try discriminate. intros _. now exists s.
Qed.

Lemma div_zero (x y : float) : is_zero x = true -> zero_or_nan (PrimFloat.div x y).
Proof.
  intros Hx. destruct (is_zero_spec x Hx) as [s Hs].
  unfold zero_or_nan. rewrite FloatAxioms.div_spec, Hs.
  destruct (Prim2SF y) as [s'|[|]| |s' m e]; exact I.
Qed.

Lemma mul_zero_or_nan (x y : float) :
  zero_or_nan x -> zero_or_nan y -> zero_or_nan (PrimFloat.mul x y).
Proof.
  unfold zero_or_nan. rewrite FloatAxioms.mul_spec.
  destruct (Prim2SF x) as [s|[|]| |s m e]; try contradiction;
    destruct (Prim2SF y) as [s'|[|]| |s' m' e']; try contradiction; intros _ _; exact I.
Qed.

Lemma add_zero_or_nan (x y : float) :
  zero_or_nan x -> zero_or_nan y -> zero_or_nan (PrimFloat.add x y).
Proof.
  unfold zero_or_nan. rewrite FloatAxioms.add_spec.
  destruct (Prim2SF x) as [[|]|[|]| |s m e]; try contradiction;
    destruct (Prim2SF y) as [[|]|[|]| |s' m' e']; try contradiction; intros _ _; exact I.
Qed.

Lemma sqrt_zero_or_nan (x : float) : zero_or_nan x -> zero_or_nan (PrimFloat.sqrt x).
Proof.
  unfold zero_or_nan. rewrite FloatAxioms.sqrt_spec.
  destruct (Prim2SF x) as [s|[|]| |s m e]; try contradiction; intros _; exact I.
Qed.

Lemma ltb_zero_or_nan (thr x : float) :
  PrimFloat.leb PrimFloat.zero thr = true -> zero_or_nan x -> PrimFloat.ltb thr x = false.
Proof.
  unfold zero_or_nan. rewrite FloatAxioms.leb_spec, FloatAxioms.ltb_spec.
  change (Prim2SF PrimFloat.zero) with (S754_zero false).
  destruct (Prim2SF x) as [s|[|]| |s m e]; try contradiction; intros Hthr _;
    destruct (Prim2SF thr) as [s'|[|]| |[|] m' e']; try reflexivity; discriminate.
Qed.

(** ** What [main4dis] selects *)

Lemma main4dis_magnitudes {F : Type} `{Np.Arith F} (v : list (Np.row F)) (thr : F) :
  snd (main4dis v thr) = map (magnitude v) v.
Proof.
  unfold main4dis. cbn [snd]. unfold Np.norm_axis1, Np.divide. now rewrite map_map.
Qed.

Lemma main4dis_indices {F : Type} `{Np.Arith F} (v : list (Np.row F)) (thr : F) :
  fst (main4dis v thr)
  = List.filter (fun i => match v !! i with
                          | Some r => Np.fgtb (magnitude v r) thr
                          | None => false
                          end) (seq 0 (length v)).
Proof.
  pose proof (main4dis_magnitudes v thr) as Hsnd.
  unfold main4dis in *. cbn [fst snd] in *. rewrite Hsnd. unfold Py.enumerate.
  rewrite (enumerate_filter_indices (fun x => Np.fgtb x thr)).
  rewrite length_map. apply filter_ext. intros i. rewrite Nat.sub_0_r.
  rewrite lookup_map. destruct (v !! i); reflexivity.
Qed.

Lemma magnitude_of_zero_row (v : list (Np.row float)) (r : Np.row float) :
  zero_row r = true -> zero_or_nan (magnitude v r).
Proof.
  unfold zero_row. rewrite !andb_true_iff. intros [[H0 H1] H2].
  unfold magnitude, Np.sq3. cbn [Np.c0 Np.c1 Np.c2 Np.fsqrt Np.fadd Np.fmul Np.fdiv Np.float64].
  apply sqrt_zero_or_nan.
  repeat apply add_zero_or_nan; apply mul_zero_or_nan; now apply div_zero.
Qed.

Lemma zero_row_not_selected (v : list (Np.row float)) (thr : float) (i : nat)
    (r : Np.row float) :
  PrimFloat.leb PrimFloat.zero thr = true ->
  v !! i = Some r -> zero_row r = true ->
  ~ In i (fst (main4dis v thr)).
Proof.
  intros Hthr Hr Hzero Hin. rewrite main4dis_indices in Hin.
  apply filter_In in Hin. destruct Hin as [_ Hsel]. rewrite Hr in Hsel.
  cbn [Np.fgtb Np.float64] in Hsel.
  rewrite (ltb_zero_or_nan thr _ Hthr (magnitude_of_zero_row v r Hzero)) in Hsel.
  discriminate.
Qed.

(** In binary64, with one moving atom and one atom at rest, the norm of
    the displacement is 1, and the atom at rest is left out at every
    threshold from 0 on, however small. *)
Lemma main4dis_leaves_resting_atom_out :
  let v := [Np.Row 1%float 0%float 0%float; Np.Row 0%float 0%float 0%float] in
  PrimFloat.eqb (Np.norm v) 1%float = true /\
  forall thr : float,
    PrimFloat.leb 0%float thr = true -> fst (main4dis v thr) <> [0%nat; 1%nat].
Proof.
  intros v. split; [vm_compute; reflexivity|].
  intros thr Hthr Heq.
  apply (zero_row_not_selected v thr 1 (Np.Row 0%float 0%float 0%float) Hthr);
    [reflexivity | reflexivity |].
  rewrite Heq. right. now left.
Qed.

(** C5 (as amended).  In binary64, for every displacement and every
    threshold: the second result holds the normalized magnitude of each
    atom, and the indices returned are, in increasing order, exactly those
    of the atoms whose normalized magnitude is strictly above the
    threshold.  An atom whose row is zero is returned at no threshold from
    0 on, so that at threshold 0 the atoms returned are those of positive
    normalized magnitude; and at threshold infinity none is returned. *)
Theorem main4dis_selects (v : list (Np.row float)) (thr : float) :
  snd (main4dis v thr) = map (magnitude v) v /\
  fst (main4dis v thr)
  = List.filter (fun i => match v !! i with
                          | Some r => PrimFloat.ltb thr (magnitude v r)
                          | None => false
                          end) (seq 0 (length v)) /\
  (PrimFloat.leb 0%float thr = true ->
   forall i r, v !! i = Some r -> zero_row r = true -> ~ In i (fst (main4dis v thr))) /\
  fst (main4dis v 0%float)
  = List.filter (fun i => match v !! i with
                          | Some r => PrimFloat.ltb 0%float (magnitude v r)
                          | None => false
                          end) (seq 0 (length v)) /\
  fst (main4dis v infinity) = [].
Proof.
  split; [apply main4dis_magnitudes|]. split; [exact (main4dis_indices v thr)|].
  split; [intros Hthr i r; now apply zero_row_not_selected|].
  split; [exact (main4dis_indices v 0%float)|].
  rewrite main4dis_indices. cbn [Np.fgtb Np.float64].
  induction (seq 0 (length v)) as [|i l IH]; [reflexivity|].
  cbn [List.filter]. destruct (v !! i) as [r|]; [|exact IH].
  now rewrite ltb_infinity.
Qed.

Lemma main4dis_selects_witness :
  ~ In 1%nat
      (fst (main4dis [Np.Row 1%float 0%float 0%float; Np.Row 0%float 0%float 0%float]
              0x1.999999999999ap-4%float)).
Proof.
  refine (proj1 (proj2 (proj2 (main4dis_selects
            [Np.Row 1%float 0%float 0%float; Np.Row 0%float 0%float 0%float]
            0x1.999999999999ap-4%float))) _ 1%nat (Np.Row 0%float 0%float 0%float) _ _);
    reflexivity.
Defined.

(** ** A displacement that is zero everywhere *)

Lemma mul_zero (x y : float) :
  (exists s, Prim2SF x = S754_zero s) -> (exists s, Prim2SF y = S754_zero s) ->
  exists s, Prim2SF (PrimFloat.mul x y) = S754_zero s.
Proof.
  intros [s Hx] [s' Hy]. rewrite FloatAxioms.mul_spec, Hx, Hy. now eexists.
Qed.

Lemma add_zero (x y : float) :
  (exists s, Prim2SF x = S754_zero s) -> (exists s, Prim2SF y = S754_zero s) ->
  exists s, Prim2SF (PrimFloat.add x y) = S754_zero s.
Proof.
  intros [s Hx] [s' Hy]. rewrite FloatAxioms.add_spec, Hx, Hy.
  destruct s, s'; now eexists.
Qed.

Lemma sqrt_zero (x : float) :
  (exists s, Prim2SF x = S754_zero s) -> exists s, Prim2SF (PrimFloat.sqrt x) = S754_zero s.
Proof. intros [s Hx]. rewrite FloatAxioms.sqrt_spec, Hx. now eexists. Qed.

Lemma div_zero_zero (x y : float) :
  (exists s, Prim2SF x = S754_zero s) -> (exists s, Prim2SF y = S754_zero s) ->
  Prim2SF (PrimFloat.div x y) = S754_nan.
Proof. intros [s Hx] [s' Hy]. now rewrite FloatAxioms.div_spec, Hx, Hy. Qed.

Lemma mul_nan (x y : float) :
  Prim2SF x = S754_nan -> Prim2SF (PrimFloat.mul x y) = S754_nan.
Proof. intros Hx. now rewrite FloatAxioms.mul_spec, Hx. Qed.

Lemma add_nan (x y : float) :
  Prim2SF x = S754_nan -> Prim2SF (PrimFloat.add x y) = S754_nan.
Proof. intros Hx. now rewrite FloatAxioms.add_spec, Hx. Qed.

Lemma sqrt_nan (x : float) :
  Prim2SF x = S754_nan -> Prim2SF (PrimFloat.sqrt x) = S754_nan.
Proof. intros Hx. now rewrite FloatAxioms.sqrt_spec, Hx. Qed.

Lemma ltb_nan (thr x : float) : Prim2SF x = S754_nan -> PrimFloat.ltb thr x = false.
Proof.
  intros Hx. rewrite FloatAxioms.ltb_spec, Hx.
  destruct (Prim2SF thr) as [s|[|]| |s m e]; reflexivity.
Qed.

Lemma is_nan_spec (x : float) : Prim2SF x = S754_nan -> PrimFloat.is_nan x = true.
Proof. intros Hx. unfold PrimFloat.is_nan. now rewrite FloatAxioms.eqb_spec, Hx. Qed.

Lemma zero_row_spec (r : Np.row float) :
  zero_row r = true ->
  (exists s, Prim2SF (Np.c0 r) = S754_zero s) /\
  (exists s, Prim2SF (Np.c1 r) = S754_zero s) /\
  (exists s, Prim2SF (Np.c2 r) = S754_zero s).
Proof.
  unfold zero_row. rewrite !andb_true_iff. intros [[H0 H1] H2].
  repeat split; now apply is_zero_spec.
Qed.

Lemma norm_of_zero_rows (v : list (Np.row float)) :
  Forall (fun r => zero_row r = true) v -> exists s, Prim2SF (Np.norm v) = S754_zero s.
Proof.
  intros Hall. unfold Np.norm. cbn [Np.fsqrt Np.float64]. apply sqrt_zero.
  induction Hall as [|r v Hr Hall IH]; [now exists false|].
  cbn [map Np.sum fold_right Np.fadd Np.float64]. apply add_zero; [|exact IH].
  destruct (zero_row_spec r Hr) as (H0 & H1 & H2).
  unfold Np.sq3. cbn [Np.fadd Np.fmul Np.float64].
  repeat apply add_zero; now apply mul_zero.
Qed.

Lemma sq3_of_nan_row (x y z : float) :
  Prim2SF x = S754_nan -> Prim2SF (Np.sq3 (Np.Row x y z)) = S754_nan.
Proof.
  intros Hx. unfold Np.sq3. cbn [Np.c0 Np.c1 Np.c2 Np.fadd Np.fmul Np.float64].
  now apply add_nan, add_nan, mul_nan.
Qed.

(** X19.  In binary64, on a displacement whose every row is zero
    [main4dis] divides by a norm that is zero: every normalized magnitude
    it returns is NaN, and no index is selected at any threshold. *)
Theorem main4dis_of_zero_displacement (v : list (Np.row float)) (thr : float) :
  Forall (fun r => zero_row r = true) v ->
  fst (main4dis v thr) = [] /\
  length (snd (main4dis v thr)) = length v /\
  Forall (fun x => PrimFloat.is_nan x = true) (snd (main4dis v thr)).
Proof.
  intros Hall. pose proof (norm_of_zero_rows v Hall) as Hnorm.
  assert (Hmag : forall r, In r v -> Prim2SF (magnitude v r) = S754_nan).
  { intros r Hin. rewrite List.Forall_forall in Hall.
    destruct (zero_row_spec r (Hall r Hin)) as (H0 & _ & _).
    unfold magnitude. cbn [Np.fsqrt Np.fdiv Np.float64].
    apply sqrt_nan, sq3_of_nan_row. now apply div_zero_zero. }
  split; [|split].
  - rewrite main4dis_indices. cbn [Np.fgtb Np.float64].
    assert (Hnone : forall l, List.filter
              (fun i => match v !! i with
                        | Some r => PrimFloat.ltb thr (magnitude v r)
                        | None => false
                        end) l = []).
    { induction l as [|i l IH]; [reflexivity|]. cbn [List.filter].
      destruct (v !! i) as [r|] eqn:Hr; [|exact IH].
      rewrite ltb_nan; [exact IH|]. apply Hmag.
      apply list_elem_of_In. eapply list_elem_of_lookup_2. exact Hr. }
    apply Hnone.
  - rewrite main4dis_magnitudes. apply length_map.
  - rewrite main4dis_magnitudes. apply List.Forall_forall. intros x Hx.
    apply in_map_iff in Hx. destruct Hx as (r & <- & Hin).
    now apply is_nan_spec, Hmag.
Qed.

Lemma main4dis_of_zero_displacement_witness :
  fst (main4dis [Np.Row 0%float 0%float 0%float; Np.Row 0%float 0%float 0%float]
         0x1.999999999999ap-4%float) = [].
Proof.
  refine (proj1 (main4dis_of_zero_displacement
                   [Np.Row 0%float 0%float 0%float; Np.Row 0%float 0%float 0%float]
                   0x1.999999999999ap-4%float _)).
  repeat constructor.
Defined.

(** X20.  In binary64, with the target magnitude 0.01 of the script, when
    the derivation of the displacement vector succeeds on a difference whose
    every row is zero, as for two images with the same finite positions,
    every entry of the displacement vector is NaN: the division by a norm
    that is zero raises nothing. *)
Theorem displacement_vector_of_equal_images (images : list (Atoms_of float)) (i : nat)
    (b a : Z) (iv dv : list (Np.row float)) :
  Script.displacement_vector images i b a Script.norm_vector64 = Ok (iv, dv) ->
  Forall (fun r => zero_row r = true) iv ->
  length dv = length iv /\ Forall (fun r => nan_row r = true) dv.
Proof.
  unfold Script.displacement_vector. intros Hdv Hall.
  destruct (Py.getitem images (Z.of_nat i - b)) as [x|]; [|discriminate].
  destruct (Py.getitem images (Z.of_nat i + a)) as [y|]; [|discriminate].
  destruct (Np.subtract (positions x) (positions y)) as [iv'|]; [|discriminate].
  injection Hdv as -> <-. unfold Np.divide. split; [apply length_map|].
  assert (Hm : exists s, Prim2SF (Script.modulo_norm iv Script.norm_vector64) = S754_zero s).
  { destruct (norm_of_zero_rows iv Hall) as [s Hs].
    unfold Script.modulo_norm. cbn [Np.fdiv Np.float64].
    rewrite FloatAxioms.div_spec, Hs. now eexists. }
  apply List.Forall_forall. intros r Hr. apply in_map_iff in Hr.
  destruct Hr as (r0 & <- & Hin). rewrite List.Forall_forall in Hall.
  destruct (zero_row_spec r0 (Hall r0 Hin)) as (H0 & H1 & H2).
  unfold nan_row. cbn [Np.c0 Np.c1 Np.c2 Np.fdiv Np.float64].
  rewrite !andb_true_iff. repeat split; now apply is_nan_spec, div_zero_zero.
Qed.

Lemma displacement_vector_of_equal_images_witness :
  exists dv,
    Script.displacement_vector
      [sample_image64 1%float; sample_image64 2%float; sample_image64 1%float]
      1 1 1 Script.norm_vector64
    = Ok ([Np.Row 0%float 0%float 0%float], dv) /\
    Forall (fun r => nan_row r = true) dv.
Proof.
  eexists. split; [vm_compute; reflexivity|].
  refine (proj2 (displacement_vector_of_equal_images
                   [sample_image64 1%float; sample_image64 2%float; sample_image64 1%float]
                   1 1 1 [Np.Row 0%float 0%float 0%float] _ _ _)).
  - vm_compute. reflexivity.
  - repeat constructor.
Defined.

(** ** Assignments through a list of indices *)

Lemma index_in_range (n : nat) (i : Z) :
  in_range n i -> Py.index n i = Some (position n i) /\ (position n i < n)%nat.
Proof.
  unfold in_range, position. intros Hi.
  destruct (Py.index n i) as [k|] eqn:Hk.
  - destruct (index_Some _ _ _ Hk) as [Hlt [[H0 Hki] | [H0 Hki]]].
    + rewrite Z.mod_small by lia. split; [f_equal|]; lia.
    + assert (Hmod : i mod Z.of_nat n = Z.of_nat n + i).
      { symmetry. apply Z.mod_unique with (q := -1); lia. }
      rewrite Hmod. split; [f_equal|]; lia.
  - apply index_None in Hk. lia.
Qed.

Lemma setitems_in_range {A} (inds : list Z) (x : A) (l : list A) :
  Forall (in_range (length l)) inds ->
  exists l',
    Py.setitems l inds x = Ok l' /\ length l' = length l /\
    forall k, (k < length l)%nat ->
      l' !! k = if names_place (length l) inds k then Some x else l !! k.
Proof.
  revert l. induction inds as [|i inds IH]; intros l Hall.
  - exists l. repeat split. 
  - apply Forall_cons in Hall. destruct Hall as [Hi Hall].
    destruct (index_in_range _ _ Hi) as [Hidx Hpos].
    cbn [Py.setitems]. unfold Py.setitem. rewrite Hidx.
    set (l1 := <[position (length l) i := x]> l).
    assert (Hlen1 : length l1 = length l) by apply length_insert.
    destruct (IH l1) as (l' & Hok & Hlen & Hlook); [now rewrite Hlen1|].
    exists l'. split; [exact Hok|]. split; [congruence|].
    intros k Hk. rewrite Hlook by lia. rewrite Hlen1.
    unfold names_place. cbn [existsb].
    destruct (existsb _ inds) eqn:Hrest.
    + now rewrite orb_true_r.
    + rewrite orb_false_r. unfold l1.
      destruct (Nat.eqb_spec (position (length l) i) k) as [->|Hne].
      * now apply list_lookup_insert_eq.
      * now apply list_lookup_insert_ne.
Qed.

Lemma setitems_IndexError {A} (inds : list Z) (x : A) (l : list A) :
  Py.setitems l inds x = Raise IndexError <-> Exists (fun i => ~ in_range (length l) i) inds.
Proof.
  revert l. induction inds as [|i inds IH]; intros l.
  - split; [discriminate | intros H; inversion H].
  - cbn [Py.setitems]. unfold Py.setitem.
    destruct (Py.index (length l) i) as [k|] eqn:Hk.
    + rewrite IH, length_insert. rewrite Exists_cons.
      destruct (index_Some _ _ _ Hk) as [Hlt Hcase].
      split; [now right|]. intros [Hbad | H]; [|exact H].
      exfalso. apply Hbad. unfold in_range. lia.
    + apply index_None in Hk. split; [|reflexivity].
      intros _. apply Exists_cons. left. unfold in_range. lia.
Qed.

Lemma setitems_raises_IndexError_only {A} (inds : list Z) (x : A) (l : list A) (e : exn) :
  Py.setitems l inds x = Raise e -> e = IndexError.
Proof.
  revert l. induction inds as [|i inds IH]; intros l; [discriminate|].
  cbn [Py.setitems]. unfold Py.setitem.
  destruct (Py.index (length l) i); [apply IH | now intros [= <-]].
Qed.

Lemma setitems_map {A B} (f : A -> B) (inds : list Z) (x : A) (l : list A) :
  Py.setitems (map f l) inds (f x)
  = match Py.setitems l inds x with
    | Ok l' => Ok (map f l')
    | Raise e => Raise e
    end.
Proof.
  revert l. induction inds as [|i inds IH]; intros l; [reflexivity|].
  cbn [Py.setitems]. unfold Py.setitem. rewrite length_map.
  destruct (Py.index (length l) i) as [k|]; [|reflexivity].
  rewrite <- IH. f_equal. symmetry. apply (list_fmap_insert f l k x).
Qed.

(** ** The mask by explicit list and the mask by constraint *)

Lemma set_d_mask_by_specified_result (self : DPDimer.t) (inds : list Z) (w : world) :
  fst (DPDimer.set_d_mask_by_specified self inds w)
  = Py.setitems (replicate (len_atoms (DPDimer.init_Atoms self)) false) inds true.
Proof. reflexivity. Qed.

Lemma set_d_mask_by_constraint_result (self : DPDimer.t) (inds : list Z)
    (others : list constraint) (w : world) :
  constraints (DPDimer.init_Atoms self) = FixAtoms inds :: others ->
  fst (DPDimer.set_d_mask_by_constraint self w)
  = Py.setitems (replicate (len_atoms (DPDimer.init_Atoms self)) true) inds false.
Proof.
  intros Hc. unfold DPDimer.set_d_mask_by_constraint. rewrite Hc. reflexivity.
Qed.

(** X1.  When every index of the list is one the structure accepts, from
    minus the number of atoms up to the number of atoms minus one, the mask
    by explicit list has one entry per atom, and the entry of an atom is
    true exactly when some index of the list names it, a negative index
    counting from the last atom.  Repetitions and the order of the list make
    no difference. *)
Theorem set_d_mask_by_specified_marks (self : DPDimer.t) (inds : list Z) (w : world) :
  let n := len_atoms (DPDimer.init_Atoms self) in
  Forall (in_range n) inds ->
  exists mask,
    fst (DPDimer.set_d_mask_by_specified self inds w) = Ok mask /\
    length mask = n /\
    forall k, (k < n)%nat -> mask !! k = Some (names_place n inds k).
Proof.
  intros n Hall. rewrite set_d_mask_by_specified_result. fold n.
  destruct (setitems_in_range inds true (replicate n false)) as (mask & Hok & Hlen & Hlook).
  - now rewrite length_replicate.
  - rewrite length_replicate in Hlen, Hlook. exists mask.
    split; [exact Hok|]. split; [exact Hlen|].
    intros k Hk. rewrite (Hlook k Hk).
    destruct (names_place n inds k); [reflexivity|].
    now apply lookup_replicate_2.
Qed.

Lemma set_d_mask_by_specified_marks_witness :
  exists mask,
    fst (DPDimer.set_d_mask_by_specified
           (sample_dimer (sample_atoms 4 []) "displacement" None) [1; -1; 1] empty_world)
    = Ok mask /\
    length mask = 4%nat.
Proof.
  destruct (set_d_mask_by_specified_marks
              (sample_dimer (sample_atoms 4 []) "displacement" None) [1; -1; 1] empty_world)
    as (mask & Hok & Hlen & _).
  - change (len_atoms _) with 4%nat.
    repeat (constructor; [unfold in_range; lia|]). constructor.
  - exists mask. split; assumption.
Defined.

(** X2.  The mask by explicit list fails with [IndexError] exactly when
    the list holds an index below minus the number of atoms or not below
    the number of atoms; it fails in no other way. *)
Theorem set_d_mask_by_specified_index_error (self : DPDimer.t) (inds : list Z) (w : world) :
  let n := len_atoms (DPDimer.init_Atoms self) in
  (fst (DPDimer.set_d_mask_by_specified self inds w) = Raise IndexError <->
   Exists (fun i => i < - Z.of_nat n \/ Z.of_nat n <= i) inds) /\
  (forall e, fst (DPDimer.set_d_mask_by_specified self inds w) = Raise e -> e = IndexError).
Proof.
  intros n. rewrite set_d_mask_by_specified_result. fold n. split.
  - rewrite setitems_IndexError, length_replicate.
    rewrite !Exists_exists.
    split; intros (i & Hin & Hi); exists i; (split; [exact Hin|]);
      unfold in_range in *; lia.
  - intros e. apply setitems_raises_IndexError_only.
Qed.

Lemma set_d_mask_by_specified_index_error_witness :
  fst (DPDimer.set_d_mask_by_specified
         (sample_dimer (sample_atoms 2 []) "displacement" None) [0; 5] empty_world)
  = Raise IndexError.
Proof.
  apply (proj1 (set_d_mask_by_specified_index_error
                  (sample_dimer (sample_atoms 2 []) "displacement" None) [0; 5]
                  empty_world)).
  apply Exists_cons_tl, Exists_cons_hd. change (len_atoms _) with 2%nat. lia.
Defined.

(** X3.  The mask by constraint built from a first constraint with the
    indices [inds] is the negation, atom by atom, of the mask by explicit
    list built from [inds], and the one fails exactly when the other
    does. *)
Theorem set_d_mask_by_constraint_complement (self : DPDimer.t) (inds : list Z)
    (others : list constraint) (w : world) :
  constraints (DPDimer.init_Atoms self) = FixAtoms inds :: others ->
  fst (DPDimer.set_d_mask_by_constraint self w)
  = match fst (DPDimer.set_d_mask_by_specified self inds w) with
    | Ok mask => Ok (map negb mask)
    | Raise e => Raise e
    end.
Proof.
  intros Hc. rewrite (set_d_mask_by_constraint_result self inds others w Hc).
  rewrite set_d_mask_by_specified_result.
  rewrite <- (setitems_map negb inds true). f_equal.
  induction (len_atoms (DPDimer.init_Atoms self)) as [|n IH]; simpl; [reflexivity|].
  now rewrite IH.
Qed.

Lemma set_d_mask_by_constraint_complement_witness :
  fst (DPDimer.set_d_mask_by_constraint
         (sample_dimer (sample_atoms 3 [FixAtoms [0; 2]]) "gauss" None) empty_world)
  = Ok [false; true; false].
Proof.
  rewrite (set_d_mask_by_constraint_complement
             (sample_dimer (sample_atoms 3 [FixAtoms [0; 2]]) "gauss" None)
             [0; 2] [] empty_world eq_refl).
  reflexivity.
Defined.

(** ** What [run] does before and without the dimer search *)

Lemma quiet_set_d_mask_by_displacement (self : DPDimer.t) :
  quiet (DPDimer.set_d_mask_by_displacement self).
Proof. unfold DPDimer.set_d_mask_by_displacement. quiet_tac. Qed.

Lemma quiet_set_d_mask_by_constraint (self : DPDimer.t) :
  quiet (DPDimer.set_d_mask_by_constraint self).
Proof. unfold DPDimer.set_d_mask_by_constraint. quiet_tac. Qed.

Lemma quiet_set_d_mask_by_specified (self : DPDimer.t) (inds : list Z) :
  quiet (DPDimer.set_d_mask_by_specified self inds).
Proof. unfold DPDimer.set_d_mask_by_specified. quiet_tac. Qed.

Lemma set_calculator_then {A} (self : DPDimer.t) (c : call) (k : M A) (w : world) :
  quiet k ->
  let hint := Some (Py.str_int (DPDimer.omp self)) in
  let w' := snd ((DPDimer.set_calculator self ;; ext c ;; k) w) in
  environ w' = <[OMP_NUM_THREADS := Py.str_int (DPDimer.omp self)]> (environ w) /\
  exists rest,
    trace w' = trace w ++ (CallDP (DPDimer.model self), hint) :: (c, hint) :: rest /\
    Forall (fun e => snd e = hint) rest.
Proof.
  intros Hk hint. unfold DPDimer.set_calculator. run_M.
  rewrite !lookup_insert_eq. fold hint.
  match goal with |- context [k ?w1] => destruct (Hk w1) as (Henv & rest & Htr & Hall) end.
  simpl in Henv, Htr, Hall. rewrite lookup_insert_eq in Hall. fold hint in Hall.
  destruct (k _) as [[a|e] w1]; simpl in *;
    (split; [exact Henv|]; exists rest; split; [|exact Hall];
     rewrite Htr, <- !app_assoc; reflexivity).
Qed.

(** X4.  Whatever the method, the index list and the outcome, [run] first
    stores the decimal rendering of [omp] in [OMP_NUM_THREADS], leaving every
    other variable as it was, then creates the calculator and opens the
    trajectory file; every later call of the run sees that value. *)
Theorem run_sets_up_first (self : DPDimer.t) (fmax : R) (mv : option (list Z)) (w : world) :
  let hint := Some (Py.str_int (DPDimer.omp self)) in
  let w' := snd (DPDimer.run self fmax mv w) in
  environ w' = <[OMP_NUM_THREADS := Py.str_int (DPDimer.omp self)]> (environ w) /\
  exists rest,
    trace w' = trace w ++ (CallDP (DPDimer.model self), hint)
                 :: (CallTrajectory (DPDimer.traj_file self), hint) :: rest /\
    Forall (fun e => snd e = hint) rest.
Proof.
  unfold DPDimer.run. apply set_calculator_then.
  repeat first [ apply quiet_set_d_mask_by_displacement
               | apply quiet_set_d_mask_by_constraint
               | apply quiet_set_d_mask_by_specified
               | quiet_step ].
Qed.

(** X5.  A dimer set up for the "displacement" method without a
    displacement vector, as the constructor leaves it by default, and run
    without a usable index list, fails with [IndexError] once the trajectory
    file is opened: no [DimerControl] is created and nothing else is
    called. *)
Theorem run_without_displacement_vector (self : DPDimer.t) (fmax : R)
    (mv : option (list Z)) (w : world) :
  DPDimer.init_eigenmode_method self = "displacement" ->
  DPDimer.displacement_vector self = None ->
  Py.truthy mv = false ->
  let hint := Some (Py.str_int (DPDimer.omp self)) in
  fst (DPDimer.run self fmax mv w) = Raise IndexError /\
  trace (snd (DPDimer.run self fmax mv w))
  = trace w ++ [(CallDP (DPDimer.model self), hint);
                (CallTrajectory (DPDimer.traj_file self), hint)].
Proof.
  intros Hm Hdv Hmv hint.
  unfold DPDimer.run, DPDimer.set_calculator, DPDimer.set_d_mask_by_displacement.
  rewrite Hm, Hdv, Hmv. run_M. rewrite lookup_insert_eq.
  split; [reflexivity|]. now rewrite <- app_assoc.
Qed.

Lemma run_without_displacement_vector_witness :
  fst (DPDimer.run (DPDimer.init (sample_atoms 2 []) "FeCHO-dpa2-full.pt") 0.05%R None
         empty_world)
  = Raise IndexError.
Proof.
  exact (proj1 (run_without_displacement_vector
                  (DPDimer.init (sample_atoms 2 []) "FeCHO-dpa2-full.pt") 0.05%R None
                  empty_world eq_refl eq_refl eq_refl)).
Defined.

(** X6.  Under the "displacement" method, an index list that holds an
    index the structure does not accept makes [run] fail with [IndexError]
    after the trajectory file is opened and before any [DimerControl] is
    created. *)
Theorem run_rejects_bad_index (self : DPDimer.t) (fmax : R) (i : Z) (inds : list Z)
    (w : world) :
  DPDimer.init_eigenmode_method self = "displacement" ->
  Exists (fun j => ~ in_range (len_atoms (DPDimer.init_Atoms self)) j) (i :: inds) ->
  let hint := Some (Py.str_int (DPDimer.omp self)) in
  fst (DPDimer.run self fmax (Some (i :: inds)) w) = Raise IndexError /\
  trace (snd (DPDimer.run self fmax (Some (i :: inds)) w))
  = trace w ++ [(CallDP (DPDimer.model self), hint);
                (CallTrajectory (DPDimer.traj_file self), hint)].
Proof.
  intros Hm Hbad hint.
  assert (Hset : Py.setitems (replicate (len_atoms (DPDimer.init_Atoms self)) false)
                   (i :: inds) true = Raise IndexError).
  { apply setitems_IndexError. now rewrite length_replicate. }
  unfold DPDimer.run, DPDimer.set_calculator, DPDimer.set_d_mask_by_specified.
  rewrite Hm. run_M. simpl in Hset. rewrite Hset. simpl. rewrite lookup_insert_eq.
  split; [reflexivity|]. now rewrite <- app_assoc.
Qed.

Lemma run_rejects_bad_index_witness :
  fst (DPDimer.run (sample_dimer (sample_atoms 2 []) "displacement" None) 0.05%R
         (Some [0; 2]) empty_world)
  = Raise IndexError.
Proof.
  refine (proj1 (run_rejects_bad_index
                   (sample_dimer (sample_atoms 2 []) "displacement" None) 0.05%R 0 [2]
                   empty_world eq_refl _)).
  apply Exists_cons_tl, Exists_cons_hd.
  change (len_atoms _) with 2%nat. unfold in_range. lia.
Defined.

(** ** The eigenmode method *)

(** C8.  A method other than "displacement" and "gauss" is rejected with a
    [ValueError] once the calculator is set and the trajectory file is
    opened, before any call to the dimer search.  Under the "gauss" method
    the mask handed to [DimerControl] is read off the constraints of the
    structure: every atom moves when there is no constraint; otherwise an
    atom moves exactly when no index of the first constraint names it, and
    an index the structure does not accept stops the run with [IndexError]
    before [DimerControl].  [displace] is never called, and the run does
    not depend on the displacement vector or on the index list. *)
Theorem run_method_dispatch (self : DPDimer.t) (fmax : R) (mv : option (list Z)) (w : world) :
  let n := len_atoms (DPDimer.init_Atoms self) in
  let hint := Some (Py.str_int (DPDimer.omp self)) in
  let set_up := [(CallDP (DPDimer.model self), hint);
                 (CallTrajectory (DPDimer.traj_file self), hint)] in
  let search mask := [(CallDimerControl "gauss" None mask, hint);
                      (CallMinModeAtoms, hint);
                      (CallMinModeTranslate, hint);
                      (CallDimerRun fmax, hint)] in
  (DPDimer.init_eigenmode_method self <> "displacement" ->
   DPDimer.init_eigenmode_method self <> "gauss" ->
   DPDimer.run self fmax mv w
   = (Raise (ValueError "init_eigenmode_method must be displacement or gauss"),
      World (<[OMP_NUM_THREADS := Py.str_int (DPDimer.omp self)]> (environ w))
        (stdout w) (trace w ++ set_up))) /\
  (DPDimer.init_eigenmode_method self = "gauss" ->
   (constraints (DPDimer.init_Atoms self) = [] ->
    fst (DPDimer.run self fmax mv w) = Ok tt /\
    trace (snd (DPDimer.run self fmax mv w))
    = trace w ++ set_up ++ search (replicate n true)) /\
   (forall inds others,
      constraints (DPDimer.init_Atoms self) = FixAtoms inds :: others ->
      Forall (in_range n) inds ->
      exists mask,
        length mask = n /\
        (forall k, (k < n)%nat -> mask !! k = Some (negb (names_place n inds k))) /\
        fst (DPDimer.run self fmax mv w) = Ok tt /\
        trace (snd (DPDimer.run self fmax mv w)) = trace w ++ set_up ++ search mask) /\
   (forall inds others,
      constraints (DPDimer.init_Atoms self) = FixAtoms inds :: others ->
      Exists (fun i => ~ in_range n i) inds ->
      fst (DPDimer.run self fmax mv w) = Raise IndexError /\
      trace (snd (DPDimer.run self fmax mv w)) = trace w ++ set_up)) /\
  (DPDimer.init_eigenmode_method self = "gauss" ->
   forall dv' mv',
     DPDimer.run
       (DPDimer.Build (DPDimer.init_Atoms self) (DPDimer.model self) (DPDimer.omp self)
          (DPDimer.directory self) (DPDimer.traj_file self)
          (DPDimer.init_eigenmode_method self) dv') fmax mv' w
     = DPDimer.run self fmax mv w).
Proof.
  intros n hint set_up search. split; [|split].
  - intros Hd Hg. apply String.eqb_neq in Hd, Hg.
    unfold DPDimer.run, DPDimer.set_calculator. rewrite Hd, Hg. run_M.
    rewrite lookup_insert_eq. now rewrite <- app_assoc.
  - intros Hg. split; [|split].
    + intros Hc.
      unfold DPDimer.run, DPDimer.set_calculator, DPDimer.set_d_mask_by_constraint.
      rewrite Hg, Hc. run_M. rewrite lookup_insert_eq.
      split; [reflexivity|]. now rewrite <- !app_assoc.
    + intros inds others Hc Hall.
      destruct (setitems_in_range inds false (replicate n true)) as (mask & Hok & Hlen & Hlook).
      { now rewrite length_replicate. }
      rewrite length_replicate in Hlen, Hlook. exists mask.
      split; [exact Hlen|]. split.
      * intros k Hk. rewrite (Hlook k Hk).
        destruct (names_place n inds k); [reflexivity|].
        now apply lookup_replicate_2.
      * unfold DPDimer.run, DPDimer.set_calculator, DPDimer.set_d_mask_by_constraint.
        rewrite Hg, Hc. run_M. fold n. rewrite Hok. simpl. rewrite lookup_insert_eq.
        split; [reflexivity|]. now rewrite <- !app_assoc.
    + intros inds others Hc Hbad.
      assert (Hset : Py.setitems (replicate n true) inds false = Raise IndexError).
      { apply setitems_IndexError. now rewrite length_replicate. }
      unfold DPDimer.run, DPDimer.set_calculator, DPDimer.set_d_mask_by_constraint.
      rewrite Hg, Hc. run_M. fold n. rewrite Hset. simpl. rewrite lookup_insert_eq.
      split; [reflexivity|]. now rewrite <- !app_assoc.
  - intros Hg dv' mv'. unfold DPDimer.run. simpl. now rewrite Hg.
Qed.

Lemma run_method_dispatch_witness :
  (let self := sample_dimer (sample_atoms 2 []) "lanczos" None in
   fst (DPDimer.run self 0.05%R None empty_world)
   = Raise (ValueError "init_eigenmode_method must be displacement or gauss")) /\
  (let self := sample_dimer (sample_atoms 3 [FixAtoms [1]; FixAtoms [0]]) "gauss" None in
   exists mask : list bool,
     (forall k, (k < 3)%nat -> mask !! k = Some (negb (names_place 3 [1] k))) /\
     fst (DPDimer.run self 0.05%R None empty_world) = Ok tt).
Proof.
  split.
  - intros self.
    pose proof (proj1 (run_method_dispatch self 0.05%R None empty_world)) as H.
    simpl in H. rewrite H; [reflexivity | discriminate | discriminate].
  - intros self.
    destruct (proj1 (proj2 (proj1 (proj2 (run_method_dispatch self 0.05%R None empty_world))
                             eq_refl)) [1] [FixAtoms [0]] eq_refl)
      as (mask & _ & Hlook & Hok & _).
    + change (len_atoms _) with 3%nat. repeat (constructor; [unfold in_range; lia|]).
      constructor.
    + exists mask. split; [exact Hlook | exact Hok].
Defined.

(** ** Reading an existing chain *)

Lemma getitem_head {A} (l : list A) (x : A) : head l = Some x -> Py.getitem l 0 = Ok x.
Proof. destruct l as [|y l]; [discriminate|]. intros [= ->]. apply getitem_0. Qed.

Lemma getitem_last {A} (l : list A) (x : A) : last l = Some x -> Py.getitem l (-1) = Ok x.
Proof.
  intros Hlast. rewrite last_lookup in Hlast.
  pose proof (lookup_lt_Some _ _ _ Hlast) as Hlt.
  apply getitem_Ok. right. split; [lia|].
  replace (Z.to_nat (Z.of_nat (length l) + -1)) with (Nat.pred (length l)) by lia.
  exact Hlast.
Qed.

Lemma reading_part_one_argument (E : external) (prog f : string) (w : world) :
  f <> "-h" -> f <> "--help" ->
  Script.reading_part E [prog; f] w
  = (ext (CallRead f (Some "traj")) ;;
     neb_abacus ← lift (read_frames E f);
     f_init ← lift (Py.getitem neb_abacus 0);
     f_final ← lift (Py.getitem neb_abacus (-1));
     atom_init ← Script.as_atoms f_init;
     atom_final ← Script.as_atoms f_final;
     mret (atom_init, atom_final, f)) w.
Proof.
  intros Hh Hhelp. apply String.eqb_neq in Hh, Hhelp.
  unfold Script.reading_part. cbn [length Nat.ltb Nat.leb Nat.eqb].
  unfold mbind at 1, M_bind, bind at 1, lift at 1. rewrite getitem_1.
  now rewrite Hh, Hhelp.
Qed.

Lemma reading_part_one_argument_ok (E : external) (prog f : string) (frames : list frame)
    (a_first a_last : Atoms) (w : world) :
  f <> "-h" -> f <> "--help" ->
  read_frames E f = Ok frames ->
  head frames = Some (FrameAtoms a_first) ->
  last frames = Some (FrameAtoms a_last) ->
  Script.reading_part E [prog; f] w
  = (Ok (a_first, a_last, f),
     World (environ w) (stdout w)
       (trace w ++ [(CallRead f (Some "traj"), environ w !! OMP_NUM_THREADS)])).
Proof.
  intros Hh Hhelp Hread Hhead Hlast.
  rewrite reading_part_one_argument by assumption. run_M.
  rewrite Hread. simpl.
  rewrite (getitem_head _ _ Hhead), (getitem_last _ _ Hlast). reflexivity.
Qed.

(** X7.  Given one argument that is not a help flag, naming a file whose
    frames start and end with a structure, the reading part takes the first
    frame as the initial structure and the last frame as the final one (the
    same structure twice when there is one frame), returns the argument as
    the name the chain will be written under, reads the file once as a
    trajectory and prints nothing. *)
Theorem reading_part_trajectory (E : external) (prog f : string) (frames : list frame)
    (a_first a_last : Atoms) (w : world) :
  f <> "-h" -> f <> "--help" ->
  read_frames E f = Ok frames ->
  head frames = Some (FrameAtoms a_first) ->
  last frames = Some (FrameAtoms a_last) ->
  Script.reading_part E [prog; f] w
  = (Ok (a_first, a_last, f),
     World (environ w) (stdout w)
       (trace w ++ [(CallRead f (Some "traj"), environ w !! OMP_NUM_THREADS)])).
Proof.
  intros Hh Hhelp Hread Hhead Hlast.
  rewrite reading_part_one_argument by assumption. run_M.
  rewrite Hread. simpl.
  rewrite (getitem_head _ _ Hhead), (getitem_last _ _ Hlast). reflexivity.
Qed.

Lemma reading_part_trajectory_witness :
  fst (Script.reading_part sample_external ["neb2dimer_dpa2.py"; "neb_latest.traj"]
         empty_world)
  = Ok (sample_atoms 1 [], sample_atoms 1 [], "neb_latest.traj").
Proof.
  rewrite (reading_part_trajectory sample_external "neb2dimer_dpa2.py" "neb_latest.traj"
             [FrameAtoms (sample_atoms 1 []); FrameAtoms (sample_atoms 1 [])]
             (sample_atoms 1 []) (sample_atoms 1 []) empty_world);
    (reflexivity || discriminate).
Defined.

(** X8.  Given one argument that is not a help flag, the reading part
    passes on the error of a read that fails, fails with [IndexError] on a
    file without frames, and fails the assertion when the first or the last
    frame is not a structure.  In none of these cases is the usage message
    printed. *)
Theorem reading_part_trajectory_errors (E : external) (prog f : string) (w : world) :
  f <> "-h" -> f <> "--help" ->
  (forall e, read_frames E f = Raise e -> fst (Script.reading_part E [prog; f] w) = Raise e) /\
  (read_frames E f = Ok [] -> fst (Script.reading_part E [prog; f] w) = Raise IndexError) /\
  (forall frames,
     read_frames E f = Ok frames ->
     head frames = Some FrameOther \/ last frames = Some FrameOther ->
     fst (Script.reading_part E [prog; f] w)
     = Raise (AssertionError "The input file is not a trajectory file contained Atoms object")) /\
  stdout (snd (Script.reading_part E [prog; f] w)) = stdout w.
Proof.
  intros Hh Hhelp. rewrite reading_part_one_argument by assumption.
  split; [|split; [|split]].
  - intros e Hread. run_M. now rewrite Hread.
  - intros Hread. run_M. now rewrite Hread.
  - intros frames Hread Hother. run_M. rewrite Hread. simpl.
    destruct frames as [|fr frames]; [destruct Hother; discriminate|].
    rewrite getitem_0. simpl.
    destruct (last (fr :: frames)) as [la|] eqn:Hlast;
      [|apply last_None in Hlast; discriminate].
    rewrite (getitem_last _ _ Hlast). simpl.
    destruct Hother as [[= ->] | [= ->]]; [reflexivity|].
    destruct fr; reflexivity.
  - run_M. destruct (read_frames E f) as [frames|]; simpl; [|reflexivity].
    destruct (Py.getitem frames 0) as [fr|]; simpl; [|reflexivity].
    destruct (Py.getitem frames (-1)) as [la|]; simpl; [|reflexivity].
    destruct fr; simpl; [|reflexivity]. destruct la; reflexivity.
Qed.

Lemma reading_part_trajectory_errors_witness :
  stdout (snd (Script.reading_part sample_external ["neb2dimer_dpa2.py"; "neb_latest.traj"]
                 empty_world))
  = [].
Proof.
  refine (proj2 (proj2 (proj2 (reading_part_trajectory_errors sample_external
                                 "neb2dimer_dpa2.py" "neb_latest.traj" empty_world _ _))));
    discriminate.
Defined.

(** ** The chain and the search on it *)

Lemma bind_Ok {A B} (m : M A) (k : A -> M B) (w w' : world) (a : A) :
  m w = (Ok a, w') -> (m ≫= k) w = k a w'.
Proof. intros H. unfold mbind, M_bind, bind. now rewrite H. Qed.

Lemma bind_Raise {A B} (m : M A) (k : A -> M B) (w w' : world) (e : exn) :
  m w = (Raise e, w') -> (m ≫= k) w = (Raise e, w').
Proof. intros H. unfold mbind, M_bind, bind. now rewrite H. Qed.

Lemma run_neb_run (E : external) (a b : Atoms) (f : string) (w : world) :
  let hint := environ w !! OMP_NUM_THREADS in
  let images := [a] ++ replicate Script.n_max a ++ [b] in
  Script.run_neb E a b f w
  = (Ok (imap (neb_relax E images) images),
     World (environ w) (stdout w)
       (trace w ++ replicate Script.n_max (CallDP Script.model, hint)
          ++ [(CallNEB (length images), hint); (CallTrajectory f, hint);
              (CallFIRE Script.neb_fmax, hint)])).
Proof.
  intros hint images. unfold Script.run_neb, Script.n_max. run_M.
  fold hint. now rewrite <- !app_assoc.
Qed.

Lemma TS_info_nonempty (images : list Atoms) :
  images <> [] ->
  exists i img, Script.TS_info images = Ok (i, img) /\ images !! i = Some img.
Proof.
  intros Hne. destruct images as [|im0 ims]; [contradiction|].
  unfold Script.TS_info, Script.neb_raw_barrier, Script.energies.
  change (@Np.fneb R Np.exact) with Np.Rneb.
  pose (barrier := max_from (potential_energy im0) (map potential_energy ims)).
  assert (Hb : py_max (map potential_energy (im0 :: ims)) = Ok barrier) by reflexivity.
  rewrite Hb. clear Hb.
  pose (P := fun a : Atoms => negb (Np.Rneb (potential_energy a) barrier)).
  assert (Hin : exists a, In a (im0 :: ims) /\ P a = true).
  { destruct (max_from_in (map potential_energy ims) (potential_energy im0)) as [H|H].
    - exists im0. split; [now left|]. apply negb_true_iff, Rneb_false. exact H.
    - apply in_map_iff in H. destruct H as (a & Ha & Hina).
      exists a. split; [now right|]. apply negb_true_iff, Rneb_false. exact Ha. }
  destruct Hin as (a & Hina & HPa).
  pose proof (filter_enumerate_nonempty P (im0 :: ims) 0 a Hina HPa) as Hnonempty.
  unfold Py.enumerate.
  change (fun p : nat * Atoms => negb (Np.Rneb (potential_energy (snd p)) barrier))
    with (fun p : nat * Atoms => P (snd p)).
  destruct (List.filter (fun p => P (snd p)) (Py.enumerate_from 0 (im0 :: ims)))
    as [|[i img] rest] eqn:Hf; [contradiction|].
  destruct (filter_enumerate_head P _ _ _ _ _ Hf) as (_ & Hi & _ & _).
  rewrite Nat.sub_0_r in Hi. exists i, img. now rewrite getitem_0.
Qed.


(** *** Energies that are not numbers *)

Lemma is_nan_true (x : float) : PrimFloat.is_nan x = true -> Prim2SF x = S754_nan.
Proof.
  unfold PrimFloat.is_nan. rewrite FloatAxioms.eqb_spec.
  destruct (Prim2SF x) as [[|]|[|]| |[|] m e]; try reflexivity; try discriminate.
  all: unfold SFeqb, SFcompare; rewrite Z.compare_refl, Pos.compare_cont_refl; discriminate.
Qed.

Lemma ltb_of_nan (m x : float) : PrimFloat.is_nan m = true -> PrimFloat.ltb m x = false.
Proof.
  intros Hm. apply is_nan_true in Hm. now rewrite FloatAxioms.ltb_spec, Hm.
Qed.

Lemma ltb_to_number (m x : float) : PrimFloat.ltb m x = true -> PrimFloat.is_nan x = false.
Proof.
  intros Hlt. destruct (PrimFloat.is_nan x) eqn:Hx; [|reflexivity].
  apply is_nan_true in Hx. rewrite FloatAxioms.ltb_spec, Hx in Hlt.
  destruct (Prim2SF m) as [s|[|]| |s m' e]; discriminate.
Qed.

Lemma eqb_with_nan (x b : float) : PrimFloat.is_nan b = true -> PrimFloat.eqb x b = false.
Proof.
  intros Hb. apply is_nan_true in Hb. rewrite FloatAxioms.eqb_spec, Hb.
  destruct (Prim2SF x) as [s|[|]| |s m e]; reflexivity.
Qed.

Lemma max_from_nan (l : list float) (m : float) :
  PrimFloat.is_nan m = true -> max_from m l = m.
Proof.
  intros Hm. induction l as [|x l IH]; [reflexivity|].
  cbn [max_from Np.fgtb Np.float64]. now rewrite (ltb_of_nan m x Hm).
Qed.

Lemma max_from_number (l : list float) (m : float) :
  PrimFloat.is_nan m = false -> PrimFloat.is_nan (max_from m l) = false.
Proof.
  revert m. induction l as [|x l IH]; intros m Hm; [exact Hm|].
  cbn [max_from Np.fgtb Np.float64]. destruct (PrimFloat.ltb m x) eqn:Hlt.
  - apply IH. now apply ltb_to_number in Hlt.
  - now apply IH.
Qed.

Lemma filter_enumerate_none {A} (P : A -> bool) (l : list A) (n : nat) :
  (forall x, In x l -> P x = false) ->
  List.filter (fun p => P (snd p)) (Py.enumerate_from n l) = [].
Proof.
  revert n. induction l as [|a l IH]; intros n Hall; [reflexivity|].
  cbn [Py.enumerate_from List.filter snd]. rewrite (Hall a) by now left.
  apply IH. intros x Hx. apply Hall. now right.
Qed.

(** X10.  In binary64, the search for the highest image fails on the empty
    chain with the [ValueError] of [max], and on a chain whose first image
    has an energy that is NaN with [IndexError]: [max] then returns that
    NaN, which no energy equals.  On every other chain it succeeds, with an
    index of the chain whose image has an energy equal to what [max]
    returns. *)
Theorem TS_info_failures (images : list (Atoms_of float)) :
  (images = [] ->
   Script.TS_info images = Raise (ValueError "max() arg is an empty sequence")) /\
  (forall im0 ims,
     images = im0 :: ims ->
     PrimFloat.is_nan (potential_energy im0) = true ->
     Script.neb_raw_barrier images = Ok (potential_energy im0) /\
     Script.TS_info images = Raise IndexError) /\
  (forall im0 ims,
     images = im0 :: ims ->
     PrimFloat.is_nan (potential_energy im0) = false ->
     exists i img barrier,
       Script.TS_info images = Ok (i, img) /\
       images !! i = Some img /\
       Script.neb_raw_barrier images = Ok barrier /\
       PrimFloat.eqb (potential_energy img) barrier = true).
Proof.
  split; [now intros ->|]. split.
  - intros im0 ims -> Hnan.
    unfold Script.TS_info, Script.neb_raw_barrier, Script.energies.
    cbn [map py_max]. rewrite (max_from_nan _ _ Hnan). split; [reflexivity|].
    unfold Py.enumerate.
    rewrite (filter_enumerate_none
               (fun a : Atoms_of float =>
                  negb (Np.fneb (potential_energy a) (potential_energy im0)))).
    + reflexivity.
    + intros a _. cbn [Np.fneb Np.float64]. now rewrite eqb_with_nan.
  - intros im0 ims -> Hnum.
    unfold Script.TS_info, Script.neb_raw_barrier, Script.energies.
    cbn [map py_max].
    set (barrier := max_from (potential_energy im0) (map potential_energy ims)).
    assert (Hb : PrimFloat.eqb barrier barrier = true).
    { pose proof (max_from_number (map potential_energy ims) _ Hnum) as Hn.
      fold barrier in Hn. unfold PrimFloat.is_nan in Hn. now apply negb_false_iff in Hn. }
    set (P := fun a : Atoms_of float => negb (Np.fneb (potential_energy a) barrier)).
    assert (Hin : exists a, In a (im0 :: ims) /\ P a = true).
    { destruct (max_from_in (map potential_energy ims) (potential_energy im0)) as [E|E];
        fold barrier in E.
      - exists im0. split; [now left|]. unfold P. cbn [Np.fneb Np.float64].
        now rewrite E, Hb.
      - apply in_map_iff in E. destruct E as (a & Ea & Hina).
        exists a. split; [now right|]. unfold P. cbn [Np.fneb Np.float64].
        now rewrite Ea, Hb. }
    destruct Hin as (a & Hina & HPa).
    pose proof (filter_enumerate_nonempty P (im0 :: ims) 0 a Hina HPa) as Hnonempty.
    unfold Py.enumerate.
    change (fun p : nat * Atoms_of float =>
              negb (Np.fneb (potential_energy (snd p)) barrier))
      with (fun p : nat * Atoms_of float => P (snd p)).
    destruct (List.filter (fun p => P (snd p)) (Py.enumerate_from 0 (im0 :: ims)))
      as [|[i img] rest] eqn:Hf; [contradiction|].
    destruct (filter_enumerate_head P _ _ _ _ _ Hf) as (_ & Hi & HPi & _).
    rewrite Nat.sub_0_r in Hi. exists i, img, barrier. rewrite getitem_0.
    repeat split; [exact Hi|].
    unfold P in HPi. cbn [Np.fneb Np.float64] in HPi. now rewrite negb_involutive in HPi.
Qed.

Lemma TS_info_failures_witness :
  Script.TS_info [MkAtoms [] [] nan; MkAtoms [] [] 1%float] = Raise IndexError /\
  exists i img,
    Script.TS_info [MkAtoms [] [] 1%float; MkAtoms [] [] nan; MkAtoms [] [] 2%float]
    = Ok (i, img).
Proof.
  split.
  - exact (proj2 (proj1 (proj2 (TS_info_failures
             [MkAtoms [] [] nan; MkAtoms [] [] 1%float])) _ _ eq_refl eq_refl)).
  - destruct (proj2 (proj2 (TS_info_failures
                [MkAtoms [] [] 1%float; MkAtoms [] [] nan; MkAtoms [] [] 2%float]))
                _ _ eq_refl eq_refl) as (i & img & _ & Hok & _).
    exists i, img. exact Hok.
Defined.

(** X11.  With the offsets of the script, one image before and one after,
    the derivation of the displacement vector from the image the search
    returns raises [IndexError] exactly when that image is the last of the
    chain. *)
Theorem displacement_vector_fails_at_last_image (images : list Atoms) (i : nat)
    (img : Atoms) (nv : R) :
  Script.TS_info images = Ok (i, img) ->
  (Script.displacement_vector images i Script.step_before_TS Script.step_after_TS nv
   = Raise IndexError
   <-> S i = length images).
Proof.
  intros Hts.
  assert (Hi : (i < length images)%nat).
  { destruct images as [|im0 ims]; [discriminate|].
    destruct (TS_info_nonempty (im0 :: ims)) as (j & img' & Hok & Hj); [discriminate|].
    rewrite Hts in Hok. injection Hok as -> ->. now apply lookup_lt_Some in Hj. }
  unfold Script.displacement_vector, Script.step_before_TS, Script.step_after_TS.
  destruct (getitem_cases images (Z.of_nat i - 1)) as [(x & -> & Hx) | [_ Hx]]; [|lia].
  destruct (getitem_cases images (Z.of_nat i + 1)) as [(y & -> & Hy) | [-> Hy]];
    [|split; [lia | reflexivity]].
  destruct (Np.subtract (positions x) (positions y)) as [iv|e] eqn:Hsub.
  - split; [discriminate | lia].
  - split; [|lia]. intros [= ->]. now apply subtract_not_IndexError in Hsub.
Qed.

Lemma displacement_vector_fails_at_last_image_witness :
  Script.displacement_vector [sample_image 0 0; sample_image 1 1; sample_image 2 2] 2
    Script.step_before_TS Script.step_after_TS Script.norm_vector
  = Raise IndexError.
Proof.
  apply (displacement_vector_fails_at_last_image
           [sample_image 0 0; sample_image 1 1; sample_image 2 2] 2 (sample_image 2 2)).
  - unfold Script.TS_info, Script.neb_raw_barrier, Script.energies. simpl.
    decide_R. simpl. decide_R. reflexivity.
  - reflexivity.
Defined.

(** ** The stages before the dimer part, taken together *)

Lemma trace_extends {A} (k : M A) (w : world) :
  quiet k -> exists new, trace (snd (k w)) = trace w ++ new.
Proof. intros Hk. destruct (Hk w) as (_ & new & Htr & _). now exists new. Qed.

Lemma relax_endpoints_run (E : external) (a b : Atoms) (w : world) :
  let hint := environ w !! OMP_NUM_THREADS in
  Script.relax_endpoints E a b w
  = (Ok (bfgs E a, bfgs E b),
     World (environ w) (stdout w)
       (trace w ++ [(CallDP Script.model, hint); (CallDP Script.model, hint);
                    (CallBFGS "init", hint); (CallBFGS "final", hint);
                    (CallWrite "init_opted.traj" "traj", hint);
                    (CallWrite "final_opted.traj" "traj", hint)])).
Proof.
  intros hint. unfold Script.relax_endpoints. run_M. fold hint.
  now rewrite <- !app_assoc.
Qed.

Lemma before_dimer_opens_chain_file (E : external) (argv : list string) (w w1 : world)
    (a b : Atoms) (f : string) :
  Script.reading_part E argv (snd (Script.parameter_setting w)) = (Ok (a, b, f), w1) ->
  exists pre post,
    trace (snd (Script.before_dimer E argv w))
    = trace w1 ++ pre ++ (CallTrajectory f, environ w1 !! OMP_NUM_THREADS) :: post.
Proof.
  intros Hread. unfold Script.before_dimer.
  rewrite (bind_Ok Script.parameter_setting _ w _ tt eq_refl).
  rewrite (bind_Ok _ _ _ _ _ Hread). cbv beta iota.
  rewrite (bind_Ok _ _ _ _ _ (relax_endpoints_run E a b w1)). cbv beta iota.
  rewrite (bind_Ok _ _ _ _ _ (run_neb_run E _ _ f _)).
  match goal with
  | |- context [snd (?k ?w3)] =>
      assert (Hq : quiet k) by quiet_tac;
      destruct (trace_extends k w3 Hq) as (new & ->)
  end.
  cbn [trace environ]. set (hint := environ w1 !! OMP_NUM_THREADS).
  exists ([(CallDP Script.model, hint); (CallDP Script.model, hint);
           (CallBFGS "init", hint); (CallBFGS "final", hint);
           (CallWrite "init_opted.traj" "traj", hint);
           (CallWrite "final_opted.traj" "traj", hint)]
          ++ replicate Script.n_max (CallDP Script.model, hint)
          ++ [(CallNEB (length ([bfgs E a] ++ replicate Script.n_max (bfgs E a)
                                  ++ [bfgs E b])), hint)]),
    ((CallFIRE Script.neb_fmax, hint) :: new).
  now rewrite <- !app_assoc.
Qed.

(** X12.  Started with one argument naming an existing chain, the script
    reads that file and later opens the same file for writing the new
    chain: the file given as input is the one the path search writes
    over. *)
Theorem before_dimer_writes_over_input (E : external) (prog f : string)
    (frames : list frame) (a_first a_last : Atoms) (w : world) :
  f <> "-h" -> f <> "--help" ->
  read_frames E f = Ok frames ->
  head frames = Some (FrameAtoms a_first) ->
  last frames = Some (FrameAtoms a_last) ->
  exists mid post,
    trace (snd (Script.before_dimer E [prog; f] w))
    = trace w ++ (CallRead f (Some "traj"), Some "omp")
        :: mid ++ (CallTrajectory f, Some "omp") :: post.
Proof.
  intros Hh Hhelp Hread Hhead Hlast.
  pose proof (reading_part_one_argument_ok E prog f frames a_first a_last
                (snd (Script.parameter_setting w)) Hh Hhelp Hread Hhead Hlast) as Hrun.
  destruct (before_dimer_opens_chain_file E [prog; f] w _ _ _ _ Hrun)
    as (pre & post & Htr).
  exists pre, post. rewrite Htr.
  unfold Script.parameter_setting, setenv. cbn [snd trace environ].
  rewrite lookup_insert_eq. now rewrite <- app_assoc.
Qed.

Lemma before_dimer_writes_over_input_witness :
  exists mid post,
    trace (snd (Script.before_dimer sample_external
                  ["neb2dimer_dpa2.py"; "neb_latest.traj"] empty_world))
    = (CallRead "neb_latest.traj" (Some "traj"), Some "omp")
        :: mid ++ (CallTrajectory "neb_latest.traj", Some "omp") :: post.
Proof.
  apply (before_dimer_writes_over_input sample_external "neb2dimer_dpa2.py"
           "neb_latest.traj"
           [FrameAtoms (sample_atoms 1 []); FrameAtoms (sample_atoms 1 [])]
           (sample_atoms 1 []) (sample_atoms 1 []) empty_world);
    (reflexivity || discriminate).
Defined.

(** X13.  Started without an argument, or with [-h] or [--help] as the
    only argument, the whole script prints the usage message once and stops
    with exit code 1, respectively 0, without a single call into the
    libraries: nothing is read, computed or written.  The variable
    [OMP_NUM_THREADS] has been set to "omp" all the same. *)
Theorem main_usage_exit (E : external) (argv : list string) (w : world) :
  (length argv < 2)%nat \/ (exists prog h, argv = [prog; h] /\ (h = "-h" \/ h = "--help")) ->
  let code := if (length argv <? 2)%nat then 1 else 0 in
  Script.main E argv w
  = (Raise (SystemExit code),
     World (<[OMP_NUM_THREADS := "omp"]> (environ w)) (stdout w ++ [Script.msg]) (trace w)).
Proof.
  intros Hcase code.
  assert (Hread : forall w0, Script.reading_part E argv w0
            = (Raise (SystemExit code),
               World (environ w0) (stdout w0 ++ [Script.msg]) (trace w0))).
  { intros w0. unfold code. destruct Hcase as [Hlen | (prog & h & -> & Hh)].
    - apply Nat.ltb_lt in Hlen. unfold Script.reading_part. now rewrite Hlen.
    - destruct Hh as [-> | ->]; reflexivity. }
  unfold Script.main, Script.before_dimer.
  apply bind_Raise.
  rewrite (bind_Ok Script.parameter_setting _ w _ tt eq_refl).
  apply bind_Raise. rewrite Hread. reflexivity.
Qed.

Lemma main_usage_exit_witness :
  fst (Script.main sample_external ["neb2dimer_dpa2.py"; "--help"] empty_world)
  = Raise (SystemExit 0).
Proof.
  rewrite (main_usage_exit sample_external ["neb2dimer_dpa2.py"; "--help"] empty_world).
  - reflexivity.
  - right. exists "neb2dimer_dpa2.py", "--help". split; [reflexivity | now right].
Defined.

(** ** The mask the script runs the dimer with *)




